(** * PythonBlahBlog: the authorization and ownership model of [app.py]

    A shallow embedding of the Flask application in [src/app.py] and of the
    form schemas in [src/forms.py].

    - The three SQLAlchemy tables become lists of records, in insertion
      order; a primary-key lookup, [scalar()] and [session.delete] are list
      operations on them.
    - A view function becomes a computation in a small state-and-failure
      monad over the [World] (database, login session, flashed messages).
      A failure keeps the state reached so far: what was committed before
      an exception stays committed.
    - [abort(code)] is the failure [HTTPException code]; a Python exception
      that no handler catches is the failure [Raise e].
    - The decorators [admin_only] and [only_commenter] are functions from
      computations to computations.
    - A path parameter is an integer where the route has an [int]
      converter and text where it has none. What the libraries make of a
      text (wtforms' validators, werkzeug's password hashes, the integer
      SQLite and Python read in a path segment) is taken as a parameter. *)

From Stdlib Require Import ZArith List Ascii String Bool Lia.
Import ListNotations.

Local Open Scope string_scope.
Local Open Scope list_scope.
Local Open Scope Z_scope.

(** ** Tables (lines 42-74 of [app.py]) *)

Module User.
Record t : Type := Build
  { id : Z; email : string; password : string; name : string }.
End User.

Module BlogPost.
Record t : Type := Build
  { id : Z; title : string; subtitle : string; date : string;
    body : string; author_id : Z; img_url : string }.
End BlogPost.

Module Comment.
Record t : Type := Build
  { id : Z; text : string; comment_author_id : Z; parent_post_id : Z }.
End Comment.

Record Db : Type := mkDb
  { users : list User.t;
    blog_posts : list BlogPost.t;
    comments : list Comment.t }.

(** ** Forms ([forms.py]) *)

Module CreatePostForm.
Record t : Type := Build
  { title : string; subtitle : string; img_url : string; body : string }.
End CreatePostForm.

Module RegisterForm.
Record t : Type := Build
  { email : string; password : string; name : string }.
End RegisterForm.

Module LoginForm.
Record t : Type := Build { email : string; password : string }.
End LoginForm.

Module CommentForm.
Record t : Type := Build { comment : string }.
End CommentForm.

(** ** Generic table operations *)

Section Table.

Context {row : Type} (pk : row -> Z).

(** [db.session.get(Model, k)]: the row whose primary key is [k]. *)
Definition get (k : Z) (tbl : list row) : option row :=
  find (fun r => pk r =? k) tbl.

(** [db.session.execute(db.select(Model).where(p)).scalar()]: the first
    matching row, or [None]. *)
Definition scalar (p : row -> bool) (tbl : list row) : option row :=
  find p tbl.

(** [db.session.delete(obj); db.session.commit()]: DELETE ... WHERE id = k. *)
Definition delete (k : Z) (tbl : list row) : list row :=
  filter (fun r => negb (pk r =? k)) tbl.

(** The key an INTEGER PRIMARY KEY column receives on insertion: one more
    than the largest key present, 1 in an empty table. *)
Definition next_id (tbl : list row) : Z :=
  1 + fold_right Z.max 0 (map pk tbl).

End Table.

(** ** The world a request runs in *)

Record World : Type := mkWorld
  { db : Db;
    session : option Z;      (* the user id flask_login keeps in the session *)
    flashes : list string }. (* messages queued by [flash] *)

Definition set_db (d : Db) (w : World) : World :=
  mkWorld d (session w) (flashes w).

Definition set_session (s : option Z) (w : World) : World :=
  mkWorld (db w) s (flashes w).

(** ** Outcomes and the request monad *)

Inductive exn : Type :=
| AttributeError
| TypeError
| IntegrityError
| OverflowError
| ValueError.

Inductive result (A : Type) : Type :=
| Ok (a : A)
| HTTPException (code : Z)
| Raise (e : exn).

Arguments Ok {A} a.
Arguments HTTPException {A} code.
Arguments Raise {A} e.

Definition M (A : Type) : Type := World -> World * result A.

Definition ret {A} (a : A) : M A := fun w => (w, Ok a).

Definition bind {A B} (c : M A) (k : A -> M B) : M B :=
  fun w =>
    match c w with
    | (w', Ok a) => k a w'
    | (w', HTTPException code) => (w', HTTPException code)
    | (w', Raise e) => (w', Raise e)
    end.

Definition abort {A} (code : Z) : M A := fun w => (w, HTTPException code).

Definition raise {A} (e : exn) : M A := fun w => (w, Raise e).

Definition gets {A} (f : World -> A) : M A := fun w => (w, Ok (f w)).

Definition modify (f : World -> World) : M unit := fun w => (f w, Ok tt).

Declare Scope request_scope.
Delimit Scope request_scope with request.
Notation "x <- c ;; k" := (bind c (fun x => k))
  (at level 61, c at next level, right associativity) : request_scope.
Notation "c ;; k" := (bind c (fun _ => k))
  (at level 61, right associativity) : request_scope.
Local Open Scope request_scope.

(** ** Responses *)

Inductive endpoint : Type :=
| login_ep
| get_all_posts_ep
| show_post_ep (post_id : Z).

Inductive response : Type :=
| RedirectTo (location : endpoint)
| RenderTemplate (template : string) (logged_in : bool).

(** [flask.redirect(location, code=302, Response=None)]: a call with any
    other keyword is a [TypeError], raised after the arguments were
    evaluated. *)
Definition redirect_params : list string := ["location"; "code"; "Response"].

Definition redirect (location : endpoint) (kwargs : list string) : M response :=
  if forallb (fun k => existsb (String.eqb k) redirect_params) kwargs
  then ret (RedirectTo location)
  else raise TypeError.

Definition flash (msg : string) : M unit :=
  modify (fun w => mkWorld (db w) (session w) (flashes w ++ [msg])).

(** ** The current identity *)

(** [current_user] is either flask_login's anonymous user, which has
    [is_authenticated] but no [id], or a row of [users]. *)
Inductive identity : Type :=
| AnonymousUser
| LoggedIn (u : User.t).

Definition is_authenticated (i : identity) : bool :=
  match i with
  | AnonymousUser => false
  | LoggedIn _ => true
  end.

(** The attribute read [current_user.id]. *)
Definition identity_id (i : identity) : M Z :=
  match i with
  | AnonymousUser => raise AttributeError
  | LoggedIn u => ret (User.id u)
  end.

(** The integers an SQLite INTEGER column holds, and a Python [int] can
    be bound to. *)
Definition sqlite_min : Z := - 2 ^ 63.

Definition sqlite_max : Z := 2 ^ 63 - 1.

Definition fits_sqlite (k : Z) : bool :=
  (sqlite_min <=? k) && (k <=? sqlite_max).

(** [db.get_or_404(Model, k)] with a Python [int] [k], as the routes with
    an [<int:...>] converter call it: the stored row; for an absent key
    404, unless the key is past what SQLite holds, where binding it raises
    [OverflowError]. (SQLite stores no row under such a key, so looking
    the row up first loses nothing.) *)
Definition get_or_404 {row : Type} (pk : row -> Z) (tbl : Db -> list row)
  (k : Z) : M row :=
  fun w =>
    match get pk k (tbl (db w)) with
    | Some r => (w, Ok r)
    | None =>
        if fits_sqlite k then (w, HTTPException 404)
        else (w, Raise OverflowError)
    end.

(** [db.get_or_404(Model, k)] with a text [k] (the user id kept in the
    session, a path segment without converter): [key] is the integer
    SQLite's comparison with the INTEGER key column reads the text as, if
    any. A text is bound as it is, so there is no overflow: no row, 404. *)
Definition get_or_404_text {row : Type} (pk : row -> Z) (tbl : Db -> list row)
  (key : option Z) : M row :=
  fun w =>
    match key with
    | Some k =>
        match get pk k (tbl (db w)) with
        | Some r => (w, Ok r)
        | None => (w, HTTPException 404)
        end
    | None => (w, HTTPException 404)
    end.

(** Lines 28-30; the session keeps [str(user.id)], which reads back as the
    id. *)
Definition load_user (user_id : Z) : M User.t :=
  get_or_404_text User.id users (Some user_id).

Definition current_user : M identity :=
  s <- gets session ;;
  match s with
  | None => ret AnonymousUser
  | Some user_id => u <- load_user user_id ;; ret (LoggedIn u)
  end.

Definition login_user (u : User.t) : M unit :=
  modify (set_session (Some (User.id u))).

(** [flask_login.logout_user()] loads the current user before it clears
    the session, so it fails where [load_user] does. *)
Definition logout_user : M unit :=
  _user <- current_user ;;
  modify (set_session None).

Definition render_template (template : string) : M response :=
  cu <- current_user ;;
  ret (RenderTemplate template (is_authenticated cu)).

(** ** Committing changes

    [users.email] and [blog_posts.title] are declared [unique=True]: a
    commit that would break either raises [IntegrityError] and leaves the
    tables as they were. Deleting a comment removes that row only.
    Deleting a post makes the ORM detach its comments, setting their
    [parent_post_id] to NULL; the column is NOT NULL, so for a post that
    has comments the commit raises [IntegrityError] and removes nothing. *)

Definition add_user (email password name : string) : M User.t :=
  fun w =>
    let d := db w in
    if existsb (fun u => User.email u =? email)%string (users d)
    then (w, Raise IntegrityError)
    else
      let u := User.Build (next_id User.id (users d)) email password name in
      (set_db (mkDb (users d ++ [u]) (blog_posts d) (comments d)) w, Ok u).

Definition add_post (title subtitle body img_url : string) (author : Z)
  (date : string) : M BlogPost.t :=
  fun w =>
    let d := db w in
    if existsb (fun p => BlogPost.title p =? title)%string (blog_posts d)
    then (w, Raise IntegrityError)
    else
      let p := BlogPost.Build (next_id BlogPost.id (blog_posts d))
                 title subtitle date body author img_url in
      (set_db (mkDb (users d) (blog_posts d ++ [p]) (comments d)) w, Ok p).

Definition add_comment (text : string) (author post : Z) : M Comment.t :=
  fun w =>
    let d := db w in
    let c := Comment.Build (next_id Comment.id (comments d)) text author post in
    (set_db (mkDb (users d) (blog_posts d) (comments d ++ [c])) w, Ok c).

Definition update_post (p : BlogPost.t) : M unit :=
  fun w =>
    let d := db w in
    if existsb (fun q => negb (BlogPost.id q =? BlogPost.id p)
                         && (BlogPost.title q =? BlogPost.title p)%string)
         (blog_posts d)
    then (w, Raise IntegrityError)
    else
      (set_db (mkDb (users d)
                 (map (fun q => if BlogPost.id q =? BlogPost.id p then p else q)
                    (blog_posts d))
                 (comments d)) w, Ok tt).

(** The relationship [BlogPost.comments]: some comment has the post as
    its parent. *)
Definition has_comments (post_id : Z) (d : Db) : bool :=
  existsb (fun c => Comment.parent_post_id c =? post_id) (comments d).

Definition delete_post_row (p : BlogPost.t) : M unit :=
  fun w =>
    let d := db w in
    if has_comments (BlogPost.id p) d
    then (w, Raise IntegrityError)
    else
      (set_db (mkDb (users d)
                 (delete BlogPost.id (BlogPost.id p) (blog_posts d))
                 (comments d)) w, Ok tt).

Definition delete_comment_row (c : Comment.t) : M unit :=
  modify (fun w =>
    let d := db w in
    set_db (mkDb (users d) (blog_posts d)
              (delete Comment.id (Comment.id c) (comments d))) w).

(** ** Decorators (lines 81-98) *)

Definition admin_only (f : M response) : M response :=
  cu <- current_user ;;
  i <- identity_id cu ;;
  if negb (i =? 1) then abort 403 else f.

Definition only_commenter (f : M response) : M response :=
  cu <- current_user ;;
  i <- identity_id cu ;;
  user <- gets (fun w =>
            scalar (fun c => Comment.comment_author_id c =? i) (comments (db w))) ;;
  cu' <- current_user ;;
  if negb (is_authenticated cu') then abort 403
  else
    i' <- identity_id cu' ;;
    a <- match user with
         | None => raise AttributeError
         | Some c => ret (Comment.comment_author_id c)
         end ;;
    if negb (i' =? a) then abort 403 else f.

(** ** View functions *)

Section Views.

(** The validators of wtforms and the password hashing of werkzeug are
    library code: the views are parametric in them. *)
Variables DataRequired URL : string -> bool.
Variable generate_password_hash : string -> string.
Variable check_password_hash : string -> string -> bool.

Definition validate_CreatePostForm (f : CreatePostForm.t) : bool :=
  DataRequired (CreatePostForm.title f)
  && DataRequired (CreatePostForm.subtitle f)
  && (DataRequired (CreatePostForm.img_url f) && URL (CreatePostForm.img_url f))
  && DataRequired (CreatePostForm.body f).

Definition validate_RegisterForm (f : RegisterForm.t) : bool :=
  DataRequired (RegisterForm.email f)
  && DataRequired (RegisterForm.password f)
  && DataRequired (RegisterForm.name f).

Definition validate_LoginForm (f : LoginForm.t) : bool :=
  DataRequired (LoginForm.email f) && DataRequired (LoginForm.password f).

Definition validate_CommentForm (f : CommentForm.t) : bool :=
  DataRequired (CommentForm.comment f).

(** [form.validate_on_submit()]: the request carries submitted data
    ([None] for a GET) and the data passes the validators. *)
Definition validate_on_submit {F : Type} (validate : F -> bool)
  (submitted : option F) : option F :=
  match submitted with
  | Some f => if validate f then Some f else None
  | None => None
  end.

(** Lines 101-127. *)
Definition register (submitted : option RegisterForm.t) : M response :=
  match validate_on_submit validate_RegisterForm submitted with
  | Some form =>
      user <- gets (fun w =>
                scalar (fun u => (User.email u =? RegisterForm.email form)%string)
                  (users (db w))) ;;
      match user with
      | Some _ =>
          flash "A user with that email already exists." ;;
          redirect login_ep []
      | None =>
          new_user <- add_user (RegisterForm.email form)
                        (generate_password_hash (RegisterForm.password form))
                        (RegisterForm.name form) ;;
          login_user new_user ;;
          redirect get_all_posts_ep []
      end
  | None => render_template "register.html"
  end.

(** Lines 130-155. *)
Definition login (submitted : option LoginForm.t) : M response :=
  match validate_on_submit validate_LoginForm submitted with
  | Some form =>
      user <- gets (fun w =>
                scalar (fun u => (User.email u =? LoginForm.email form)%string)
                  (users (db w))) ;;
      match user with
      | None =>
          flash "That email does not exist. Please try again." ;;
          redirect login_ep []
      | Some u =>
          if negb (check_password_hash (User.password u) (LoginForm.password form))
          then
            flash "Password incorrect. Please try again." ;;
            redirect login_ep []
          else
            login_user u ;;
            redirect get_all_posts_ep []
      end
  | None => render_template "login.html"
  end.

(** Lines 158-162. *)
Definition logout : M response :=
  logout_user ;;
  redirect get_all_posts_ep [].

(** Lines 172-200. *)
Definition show_post (post_id : Z) (submitted : option CommentForm.t)
  : M response :=
  requested_post <- get_or_404 BlogPost.id blog_posts post_id ;;
  match validate_on_submit validate_CommentForm submitted with
  | Some form =>
      cu <- current_user ;;
      if negb (is_authenticated cu)
      then
        flash "You must login or register to comment." ;;
        redirect login_ep []
      else
        author <- identity_id cu ;;
        add_comment (CommentForm.comment form) author
          (BlogPost.id requested_post) ;;
        render_template "post.html"
  | None => render_template "post.html"
  end.

(** Lines 205-219, before decoration; [today] is
    [date.today().strftime("%B %d, %Y")]. *)
Definition add_new_post_view (today : string)
  (submitted : option CreatePostForm.t) : M response :=
  match validate_on_submit validate_CreatePostForm submitted with
  | Some form =>
      cu <- current_user ;;
      author <- identity_id cu ;;
      add_post (CreatePostForm.title form) (CreatePostForm.subtitle form)
        (CreatePostForm.body form) (CreatePostForm.img_url form) author today ;;
      redirect get_all_posts_ep []
  | None => render_template "make-post.html"
  end.

(** Lines 203-204. *)
Definition add_new_post (today : string) (submitted : option CreatePostForm.t)
  : M response :=
  admin_only (add_new_post_view today submitted).

(** Lines 224-241, before decoration. *)
Definition edit_post_view (post_id : Z) (submitted : option CreatePostForm.t)
  : M response :=
  post <- get_or_404 BlogPost.id blog_posts post_id ;;
  match validate_on_submit validate_CreatePostForm submitted with
  | Some edit_form =>
      cu <- current_user ;;
      author <- identity_id cu ;;
      update_post
        (BlogPost.Build (BlogPost.id post)
           (CreatePostForm.title edit_form)
           (CreatePostForm.subtitle edit_form)
           (BlogPost.date post)
           (CreatePostForm.body edit_form)
           author
           (CreatePostForm.img_url edit_form)) ;;
      redirect (show_post_ep (BlogPost.id post)) []
  | None => render_template "make-post.html"
  end.

(** Lines 222-223. *)
Definition edit_post (post_id : Z) (submitted : option CreatePostForm.t)
  : M response :=
  admin_only (edit_post_view post_id submitted).

End Views.

(** Lines 244-249: no decorator; the [redirect] call passes [logged_in]. *)
Definition delete_post (post_id : Z) : M response :=
  post_to_delete <- get_or_404 BlogPost.id blog_posts post_id ;;
  delete_post_row post_to_delete ;;
  cu <- current_user ;;
  let _logged_in := is_authenticated cu in
  redirect get_all_posts_ep ["logged_in"].

Section TextSegments.

(** The route [/delete_comment/<comment_id>/<post_id>] has no converter:
    both parameters reach the view as text. What SQLite's comparison with
    an INTEGER column and Python's [int] make of a text is library
    behaviour: [sqlite_integer s] is the integer the comparison reads [s]
    as, if any; [python_int s] is [int(s)], [None] where it raises
    [ValueError]. *)
Variables sqlite_integer python_int : string -> option Z.

(** [url_for('show_post', post_id=s)] with a text [s]: the [int] converter
    of the target route builds the URL from [int(s)]. *)
Definition url_for_show_post (post_id : string) : M endpoint :=
  match python_int post_id with
  | Some n => ret (show_post_ep n)
  | None => raise ValueError
  end.

(** Lines 254-258, before decoration. *)
Definition delete_comment_view (post_id comment_id : string) : M response :=
  comment <- get_or_404_text Comment.id comments (sqlite_integer comment_id) ;;
  delete_comment_row comment ;;
  location <- url_for_show_post post_id ;;
  redirect location [].

(** Lines 252-253. *)
Definition delete_comment (post_id comment_id : string) : M response :=
  only_commenter (delete_comment_view post_id comment_id).

End TextSegments.

(** ** Routing

    One constructor per [@app.route] that changes or guards state, with
    what the request carries: path parameters (integers where the route
    has an [int] converter, text where it has none), submitted form data,
    and for [/new-post] the current date. *)

Inductive request : Type :=
| req_register (submitted : option RegisterForm.t)
| req_login (submitted : option LoginForm.t)
| req_logout
| req_show_post (post_id : Z) (submitted : option CommentForm.t)
| req_new_post (today : string) (submitted : option CreatePostForm.t)
| req_edit_post (post_id : Z) (submitted : option CreatePostForm.t)
| req_delete (post_id : Z)
| req_delete_comment (comment_id post_id : string).

(** The [int] converter of a route matches digits only, of any length: no
    URL carries a negative number, and a request for one matches no route,
    which the router answers with 404 without calling a view. *)
Definition int_converter (k : Z) (view : Z -> M response) : M response :=
  if k <? 0 then abort 404 else view k.

(** A path parameter without converter matches one or more characters
    other than the slash; any other text matches no route. *)
Fixpoint has_slash (s : string) : bool :=
  match s with
  | EmptyString => false
  | String c rest => Ascii.eqb c "/"%char || has_slash rest
  end.

Definition is_segment (s : string) : bool :=
  match s with
  | EmptyString => false
  | String _ _ => negb (has_slash s)
  end.

Definition string_converter (s : string) (view : string -> M response)
  : M response :=
  if is_segment s then view s else abort 404.

Section Routing.

Variables DataRequired URL : string -> bool.
Variable generate_password_hash : string -> string.
Variable check_password_hash : string -> string -> bool.
Variables sqlite_integer python_int : string -> option Z.

Definition dispatch (r : request) : M response :=
  match r with
  | req_register submitted =>
      register DataRequired generate_password_hash submitted
  | req_login submitted => login DataRequired check_password_hash submitted
  | req_logout => logout
  | req_show_post post_id submitted =>
      int_converter post_id
        (fun post_id => show_post DataRequired post_id submitted)
  | req_new_post today submitted =>
      add_new_post DataRequired URL today submitted
  | req_edit_post post_id submitted =>
      int_converter post_id
        (fun post_id => edit_post DataRequired URL post_id submitted)
  | req_delete post_id => int_converter post_id delete_post
  | req_delete_comment comment_id post_id =>
      string_converter comment_id (fun comment_id =>
      string_converter post_id (fun post_id =>
      delete_comment sqlite_integer python_int post_id comment_id))
  end.

(** The worlds one client can bring about, starting from empty tables
    ([db.create_all()], line 78) and no session. *)
Inductive reachable : World -> Prop :=
| reachable_init : reachable (mkWorld (mkDb [] [] []) None [])
| reachable_step (w : World) (r : request) :
    reachable w -> reachable (fst (dispatch r w)).

End Routing.

(** ** Invariants and weakest preconditions *)

(** Primary keys are distinct in each table. *)
Definition distinct_keys (d : Db) : Prop :=
  NoDup (map User.id (users d))
  /\ NoDup (map BlogPost.id (blog_posts d))
  /\ NoDup (map Comment.id (comments d)).

(** [wp c Q E w]: run from [w], [c] either returns [a] in a world with
    [Q a], or fails in a world with [E]. *)
Definition wp {A} (c : M A) (Q : A -> World -> Prop) (E : World -> Prop)
  (w : World) : Prop :=
  match c w with
  | (w', Ok a) => Q a w'
  | (w', _) => E w'
  end.

(** ** A sample deployment

    Four users (Alice is the first registrant), two posts and two comments;
    Dave has written no comment. The sample validators stand in for
    wtforms' [DataRequired] and [URL]. *)

Definition alice : User.t := User.Build 1 "alice@x.com" "h:alice" "Alice".
Definition bob : User.t := User.Build 2 "bob@x.com" "h:bob" "Bob".
Definition carol : User.t := User.Build 3 "carol@x.com" "h:carol" "Carol".
Definition dave : User.t := User.Build 4 "dave@x.com" "h:dave" "Dave".

Definition post1 : BlogPost.t :=
  BlogPost.Build 1 "Cactus" "Who knew" "January 01, 2024" "Spiky." 1
    "http://x.com/cactus.png".
Definition post2 : BlogPost.t :=
  BlogPost.Build 2 "Beans" "Top 10" "February 02, 2024" "Tasty." 1
    "http://x.com/beans.png".

Definition comment1 : Comment.t := Comment.Build 1 "hello" 2 1.
Definition comment2 : Comment.t := Comment.Build 2 "nice" 3 1.

Definition sample_db : Db :=
  mkDb [alice; bob; carol; dave] [post1; post2] [comment1; comment2].

Definition sample_world (s : option Z) : World := mkWorld sample_db s [].

Definition nonempty (s : string) : bool :=
  match s with
  | EmptyString => false
  | String _ _ => true
  end.

Definition http_prefixed (s : string) : bool := String.prefix "http" s.

(** The sample reading of a text path segment, for SQLite and for Python
    alike: the value of a non-empty run of decimal digits. *)
Fixpoint digits_value (s : string) (acc : Z) : option Z :=
  match s with
  | EmptyString => Some acc
  | String c rest =>
      let d := Z.of_N (Ascii.N_of_ascii c) - 48 in
      if (0 <=? d) && (d <=? 9) then digits_value rest (10 * acc + d)
      else None
  end.

Definition decimal_segment (s : string) : option Z :=
  match s with
  | EmptyString => None
  | String _ _ => digits_value s 0
  end.

Definition sample_hash (s : string) : string := "h:" ++ s.

Definition sample_check (h s : string) : bool := (h =? sample_hash s)%string.

Definition sample_edit : CreatePostForm.t :=
  CreatePostForm.Build "Cacti" "Plural" "http://x.com/cacti.png" "Spikier.".

(** The user [u] is the one the session names and the table holds. *)
Definition logged_in_as (w : World) (u : User.t) : Prop :=
  session w = Some (User.id u)
  /\ get User.id (User.id u) (users (db w)) = Some u.

(** The session names nobody, or somebody [users] holds: [current_user]
    loads. *)
Definition session_ok (w : World) : Prop :=
  match session w with
  | None => True
  | Some user_id => get User.id user_id (users (db w)) <> None
  end.

(** What a submitted edit makes of a post: the four form fields and the
    editor replace the old values, the id and the date stay. *)
Definition edited (p : BlogPost.t) (form : CreatePostForm.t) (editor : User.t)
  : BlogPost.t :=
  BlogPost.Build (BlogPost.id p)
    (CreatePostForm.title form) (CreatePostForm.subtitle form)
    (BlogPost.date p)
    (CreatePostForm.body form) (User.id editor) (CreatePostForm.img_url form).

(** The sample deployment after Alice's edit of post 1. *)
Definition edited_world : World :=
  mkWorld
    (mkDb [alice; bob; carol; dave]
       [BlogPost.Build 1 "Cacti" "Plural" "January 01, 2024" "Spikier." 1
          "http://x.com/cacti.png"; post2]
       [comment1; comment2])
    (Some 1) [].

(** The sample deployment with another date on post 1. *)
Definition redated_world : World :=
  mkWorld
    (mkDb [alice; bob; carol; dave]
       [BlogPost.Build 1 "Cactus" "Who knew" "May 05, 2020" "Spiky." 1
          "http://x.com/cactus.png"; post2]
       [comment1; comment2])
    (Some 1) [].

(** The spec's reading of edit-post: every field of the post but its id is
    replaced by what was submitted, and the author by the editor. Then the
    row a successful edit leaves is a function [mk] of the id, the
    submitted form and the editor alone. *)
Definition edit_replaces_all_but_id (DataRequired URL : string -> bool) : Prop :=
  exists mk : Z -> CreatePostForm.t -> User.t -> BlogPost.t,
    forall (w w' : World) (post_id : Z) (form : CreatePostForm.t) (u : User.t)
           (location : endpoint),
      logged_in_as w u ->
      edit_post DataRequired URL post_id (Some form) w
      = (w', Ok (RedirectTo location)) ->
      get BlogPost.id post_id (blog_posts (db w')) = Some (mk post_id form u).

(** The session names nobody, or somebody [users] holds, and keys are
    distinct. *)
Definition well_formed (w : World) : Prop :=
  distinct_keys (db w) /\ session_ok w.

(** The computation [c] takes well-formed worlds to well-formed worlds,
    whether it returns or fails. *)
Definition keeps_well_formed {A} (c : M A) : Prop :=
  forall w, well_formed w -> wp c (fun _ => well_formed) well_formed w.

(** ** Read-only pages *)

(** Lines 165-169: the rendered page together with the [all_posts] the
    template is given. *)
Definition get_all_posts : M (list BlogPost.t * response) :=
  posts <- gets (fun w => blog_posts (db w)) ;;
  page <- render_template "index.html" ;;
  ret (posts, page).

(** Lines 261-263. *)
Definition about : M response := render_template "about.html".

(** Lines 266-268. *)
Definition contact : M response := render_template "contact.html".

(** ** Serving requests in turn *)

Definition fresh_world : World := mkWorld (mkDb [] [] []) None [].

Section Serving.

Variables DataRequired URL : string -> bool.
Variable generate_password_hash : string -> string.
Variable check_password_hash : string -> string -> bool.
Variables sqlite_integer python_int : string -> option Z.

(** The world after the requests [rs], served one after the other; a
    request that fails leaves the world its view had reached. *)
Definition serve (rs : list request) (w : World) : World :=
  fold_left
    (fun w r =>
       fst (dispatch DataRequired URL generate_password_hash
              check_password_hash
              sqlite_integer python_int r w))
    rs w.

End Serving.

(** The requests that build the sample deployment from empty tables:
    Alice registers first and writes the two posts, Bob and Carol register
    and comment on post 1, Dave registers last. *)
Definition sample_requests : list request :=
  [ req_register (Some (RegisterForm.Build "alice@x.com" "alice" "Alice"));
    req_new_post "January 01, 2024"
      (Some (CreatePostForm.Build "Cactus" "Who knew"
               "http://x.com/cactus.png" "Spiky."));
    req_new_post "February 02, 2024"
      (Some (CreatePostForm.Build "Beans" "Top 10"
               "http://x.com/beans.png" "Tasty."));
    req_register (Some (RegisterForm.Build "bob@x.com" "bob" "Bob"));
    req_show_post 1 (Some (CommentForm.Build "hello"));
    req_register (Some (RegisterForm.Build "carol@x.com" "carol" "Carol"));
    req_show_post 1 (Some (CommentForm.Build "nice"));
    req_register (Some (RegisterForm.Build "dave@x.com" "dave" "Dave")) ].

(** A registration form with an email the sample deployment does not hold. *)
Definition erin_form : RegisterForm.t :=
  RegisterForm.Build "erin@x.com" "erin" "Erin".

(** ** More invariants *)

(** No two users share an email. *)
Definition unique_emails (d : Db) : Prop :=
  NoDup (map User.email (users d)).

(** The author of every post and of every comment is a stored user. *)
Definition authors_exist (d : Db) : Prop :=
  (forall p, In p (blog_posts d) ->
     get User.id (BlogPost.author_id p) (users d) <> None)
  /\ (forall c, In c (comments d) ->
        get User.id (Comment.comment_author_id c) (users d) <> None).

(** * Properties *)

Arguments get : simpl never.
Arguments scalar : simpl never.
Arguments delete : simpl never.
Arguments next_id : simpl never.
Arguments current_user : simpl never.

(** ** Tables *)

Section TableFacts.

Context {row : Type} (pk : row -> Z).

Lemma get_some_pk (k : Z) (tbl : list row) (r : row) :
  get pk k tbl = Some r -> In r tbl /\ pk r = k.
Proof.
  unfold get. intros H. apply find_some in H.
  destruct H as [Hin Hk]. split; [exact Hin | now apply Z.eqb_eq].
Qed.

Lemma get_delete_same (k : Z) (tbl : list row) :
  get pk k (delete pk k tbl) = None.
Proof.
  unfold get, delete. induction tbl as [|r tbl IH]; cbn; [reflexivity|].
  destruct (pk r =? k) eqn:E; cbn; [exact IH | now rewrite E].
Qed.

Lemma get_delete_other (k k' : Z) (tbl : list row) :
  k' <> k -> get pk k' (delete pk k tbl) = get pk k' tbl.
Proof.
  intros Hne. unfold get, delete.
  induction tbl as [|r tbl IH]; cbn; [reflexivity|].
  destruct (pk r =? k) eqn:E; cbn.
  - apply Z.eqb_eq in E.
    destruct (pk r =? k') eqn:E'; [apply Z.eqb_eq in E'; lia | exact IH].
  - destruct (pk r =? k'); [reflexivity | exact IH].
Qed.

Lemma delete_In (k : Z) (tbl : list row) (r : row) :
  In r (delete pk k tbl) <-> In r tbl /\ pk r <> k.
Proof.
  unfold delete. rewrite filter_In, negb_true_iff, Z.eqb_neq. reflexivity.
Qed.

Lemma delete_absent (k : Z) (tbl : list row) :
  (forall r, In r tbl -> pk r <> k) -> delete pk k tbl = tbl.
Proof.
  unfold delete. induction tbl as [|r tbl IH]; cbn; intros H; [reflexivity|].
  destruct (pk r =? k) eqn:E.
  - apply Z.eqb_eq in E. exfalso. apply (H r); [now left | exact E].
  - cbn. f_equal. apply IH. intros r' Hr'. apply H. now right.
Qed.

(** With distinct keys, deleting by key takes out one row and keeps the
    others in place. *)
Lemma delete_splits (k : Z) (tbl : list row) (r : row) :
  NoDup (map pk tbl) -> get pk k tbl = Some r ->
  exists before after,
    tbl = before ++ r :: after /\ delete pk k tbl = before ++ after.
Proof.
  induction tbl as [|x tbl IH]; intros Hnd Hget; [discriminate|].
  inversion Hnd as [|? ? Hnotin Hnd']; subst.
  assert (Hstep : delete pk k (x :: tbl)
                  = if pk x =? k then delete pk k tbl else x :: delete pk k tbl).
  { unfold delete. cbn. now destruct (pk x =? k). }
  unfold get in Hget. cbn in Hget. rewrite Hstep.
  destruct (pk x =? k) eqn:E.
  - injection Hget as ->. apply Z.eqb_eq in E.
    exists [], tbl. split; [reflexivity|]. cbn.
    apply delete_absent. intros r' Hr' Heq. apply Hnotin.
    rewrite E, <- Heq. now apply in_map.
  - destruct (IH Hnd' Hget) as (b & a & Htbl & Hdel).
    exists (x :: b), a. split; [now rewrite Htbl | now rewrite Hdel].
Qed.

Lemma scalar_none_iff (p : row -> bool) (tbl : list row) :
  scalar p tbl = None <-> (forall r, In r tbl -> p r = false).
Proof.
  unfold scalar. split.
  - intros H r Hr. exact (find_none p tbl H r Hr).
  - induction tbl as [|x tbl IH]; cbn; intros H; [reflexivity|].
    rewrite (H x (or_introl eq_refl)). apply IH. intros r Hr. apply H. now right.
Qed.

End TableFacts.

(** ** The current identity *)

(** [current_user] reads the world and leaves it as it is. *)
Lemma current_user_cases (w : World) :
  current_user w
  = (w, match session w with
        | None => Ok AnonymousUser
        | Some user_id =>
            match get User.id user_id (users (db w)) with
            | Some u => Ok (LoggedIn u)
            | None => HTTPException 404
            end
        end).
Proof.
  unfold current_user, bind, gets, load_user, get_or_404_text, ret.
  destruct (session w) as [user_id|]; [|reflexivity].
  now destruct (get User.id user_id (users (db w))).
Qed.

Lemma current_user_anonymous (w : World) :
  session w = None -> current_user w = (w, Ok AnonymousUser).
Proof.
  intros H. unfold current_user, bind, gets. now rewrite H.
Qed.

Lemma current_user_logged_in (w : World) (u : User.t) :
  logged_in_as w u -> current_user w = (w, Ok (LoggedIn u)).
Proof.
  intros [Hs Hu].
  unfold current_user, bind, gets, load_user, get_or_404_text. rewrite Hs.
  now rewrite Hu.
Qed.

Lemma current_user_loads (w : World) :
  session_ok w -> exists i, current_user w = (w, Ok i).
Proof.
  unfold session_ok. destruct (session w) as [user_id|] eqn:Hs; intros H.
  - destruct (get User.id user_id (users (db w))) as [u|] eqn:Hu;
      [|contradiction].
    exists (LoggedIn u). apply current_user_logged_in. split.
    + apply get_some_pk in Hu. destruct Hu as [_ ->]. exact Hs.
    + apply get_some_pk in Hu as Hu'. destruct Hu' as [_ ->]. exact Hu.
  - exists AnonymousUser. now apply current_user_anonymous.
Qed.

Lemma current_user_pure (w w' : World) (r : result identity) :
  current_user w = (w', r) -> w' = w.
Proof.
  unfold current_user, bind, gets, load_user, get_or_404_text, ret.
  destruct (session w); [destruct (get _ _ _)|]; now intros [= <- _].
Qed.

(** [logout] clears the session where the current user loads, and stops
    at the 404 of [load_user] where it does not. *)
Lemma logout_cases (w : World) :
  logout w
  = match session w with
    | None => (set_session None w, Ok (RedirectTo get_all_posts_ep))
    | Some user_id =>
        match get User.id user_id (users (db w)) with
        | Some _ => (set_session None w, Ok (RedirectTo get_all_posts_ep))
        | None => (w, HTTPException 404)
        end
    end.
Proof.
  unfold logout, logout_user, bind. rewrite current_user_cases.
  destruct (session w) as [user_id|]; [|reflexivity].
  now destruct (get User.id user_id (users (db w))).
Qed.

Lemma logout_loaded (w : World) :
  session_ok w ->
  logout w = (set_session None w, Ok (RedirectTo get_all_posts_ep)).
Proof.
  unfold session_ok. rewrite logout_cases.
  destruct (session w) as [user_id|]; [|reflexivity].
  destruct (get User.id user_id (users (db w))); [reflexivity|].
  intros H. now contradiction H.
Qed.

(** ** The decorators *)

Lemma admin_only_logged_in (w : World) (u : User.t) (f : M response) :
  logged_in_as w u ->
  admin_only f w = if User.id u =? 1 then f w else (w, HTTPException 403).
Proof.
  intros H. unfold admin_only, bind.
  rewrite (current_user_logged_in w u H). cbn.
  now destruct (User.id u =? 1).
Qed.

Lemma admin_only_anonymous (w : World) (f : M response) :
  session w = None -> admin_only f w = (w, Raise AttributeError).
Proof.
  intros H. unfold admin_only, bind.
  now rewrite (current_user_anonymous w H).
Qed.

(** Once the requester has written any comment at all, the guard lets the
    request through: the row it inspects was selected by the requester's
    own id. *)
Lemma only_commenter_with_a_comment (w : World) (u : User.t) (c : Comment.t)
  (f : M response) :
  logged_in_as w u -> In c (comments (db w)) ->
  Comment.comment_author_id c = User.id u ->
  only_commenter f w = f w.
Proof.
  intros H Hin Hc. unfold only_commenter, bind.
  rewrite (current_user_logged_in w u H). cbn.
  destruct (scalar (fun c0 => Comment.comment_author_id c0 =? User.id u)
              (comments (db w))) as [c0|] eqn:Hq.
  - rewrite (current_user_logged_in w u H). cbn.
    unfold scalar in Hq. apply find_some in Hq. destruct Hq as [_ Hq].
    rewrite Z.eqb_sym, Hq. reflexivity.
  - exfalso. rewrite scalar_none_iff in Hq. specialize (Hq c Hin).
    cbn in Hq. rewrite Hc, Z.eqb_refl in Hq. discriminate.
Qed.

Lemma only_commenter_without_comment (w : World) (u : User.t) (f : M response) :
  logged_in_as w u ->
  (forall c, In c (comments (db w)) -> Comment.comment_author_id c <> User.id u) ->
  only_commenter f w = (w, Raise AttributeError).
Proof.
  intros H Hnone. unfold only_commenter, bind.
  rewrite (current_user_logged_in w u H). cbn.
  assert (Hq : scalar (fun c0 => Comment.comment_author_id c0 =? User.id u)
                 (comments (db w)) = None).
  { apply scalar_none_iff. intros c Hc. apply Z.eqb_neq. now apply Hnone. }
  rewrite Hq, (current_user_logged_in w u H). reflexivity.
Qed.

(** A requester who has written some comment [own] deletes the comment
    the first path segment names, whoever wrote it; the delete is
    committed before the URL of the redirect is built from the second
    segment, which raises [ValueError] where Python reads no integer. *)
Lemma delete_comment_let_through
  (sqlite_integer python_int : string -> option Z)
  (w : World) (u : User.t) (own c : Comment.t) (post_id comment_id : string)
  (k : Z) :
  logged_in_as w u ->
  In own (comments (db w)) -> Comment.comment_author_id own = User.id u ->
  sqlite_integer comment_id = Some k ->
  get Comment.id k (comments (db w)) = Some c ->
  delete_comment sqlite_integer python_int post_id comment_id w
  = (set_db (mkDb (users (db w)) (blog_posts (db w))
               (delete Comment.id k (comments (db w)))) w,
     match python_int post_id with
     | Some n => Ok (RedirectTo (show_post_ep n))
     | None => Raise ValueError
     end).
Proof.
  intros H Hin Hown Hk Hget. unfold delete_comment.
  destruct (get_some_pk Comment.id _ _ _ Hget) as [_ Hid].
  rewrite (only_commenter_with_a_comment w u own _ H Hin Hown).
  unfold delete_comment_view, bind, get_or_404_text, url_for_show_post.
  rewrite Hk, Hget. cbn. rewrite Hid.
  now destruct (python_int post_id).
Qed.

(** The author of a comment deletes that comment, and the other rows stay
    where they are. *)
Lemma delete_comment_by_author (sqlite_integer python_int : string -> option Z)
  (w : World) (u : User.t) (c : Comment.t) (post_id comment_id : string)
  (k : Z) :
  logged_in_as w u ->
  sqlite_integer comment_id = Some k ->
  get Comment.id k (comments (db w)) = Some c ->
  Comment.comment_author_id c = User.id u ->
  delete_comment sqlite_integer python_int post_id comment_id w
  = (set_db (mkDb (users (db w)) (blog_posts (db w))
               (delete Comment.id k (comments (db w)))) w,
     match python_int post_id with
     | Some n => Ok (RedirectTo (show_post_ep n))
     | None => Raise ValueError
     end).
Proof.
  intros H Hk Hget Hc.
  destruct (get_some_pk Comment.id _ _ _ Hget) as [Hin _].
  exact (delete_comment_let_through sqlite_integer python_int w u c c post_id
           comment_id k H Hin Hc Hk Hget).
Qed.

(** C1: a requester who is not the author of the comment being deleted is
    not refused. Carol (id 3), who wrote comment 2, asks for
    [/delete_comment/1/1], to delete comment 1, which Bob (id 2) wrote:
    the guard looks at Carol's own comment, lets her through, and Bob's
    comment is deleted. The path segment [1] is read as the integer 1. *)
Theorem delete_comment_by_another_commenter
  (sqlite_integer python_int : string -> option Z) :
  sqlite_integer "1" = Some 1 -> python_int "1" = Some 1 ->
  get Comment.id 1 (comments (db (sample_world (Some 3)))) = Some comment1
  /\ Comment.comment_author_id comment1 <> User.id carol
  /\ delete_comment sqlite_integer python_int "1" "1" (sample_world (Some 3))
     = (mkWorld (mkDb [alice; bob; carol; dave] [post1; post2] [comment2])
          (Some 3) [],
        Ok (RedirectTo (show_post_ep 1))).
Proof.
  intros Hk Hn. split; [reflexivity|]. split; [discriminate|].
  rewrite (delete_comment_let_through sqlite_integer python_int
             (sample_world (Some 3)) carol comment2 comment1 "1" "1" 1
             (conj eq_refl eq_refl) (or_intror (or_introl eq_refl)) eq_refl
             Hk eq_refl).
  now rewrite Hn.
Qed.

Lemma delete_comment_by_another_commenter_witness :
  delete_comment decimal_segment decimal_segment "1" "1" (sample_world (Some 3))
  = (mkWorld (mkDb [alice; bob; carol; dave] [post1; post2] [comment2])
       (Some 3) [],
     Ok (RedirectTo (show_post_ep 1))).
Proof.
  destruct (delete_comment_by_another_commenter decimal_segment decimal_segment
              eq_refl eq_refl) as (_ & _ & Hrun).
  exact Hrun.
Defined.

(** C3: for a logged-in user, [admin_only] lets the request through exactly
    when the user's id is 1, whatever the user's email, password or name;
    with any other id the request is refused with 403. *)
Theorem admin_only_iff_id_is_1 (w : World) (u : User.t) :
  logged_in_as w u ->
  ((forall f, admin_only f w = f w) <-> User.id u = 1)
  /\ (User.id u <> 1 -> forall f, admin_only f w = (w, HTTPException 403)).
Proof.
  intros H. split; [split|].
  - intros Hpass. specialize (Hpass (ret (RedirectTo login_ep))).
    rewrite (admin_only_logged_in w u _ H) in Hpass.
    destruct (User.id u =? 1) eqn:E; [now apply Z.eqb_eq | discriminate].
  - intros Hid f. rewrite (admin_only_logged_in w u f H).
    now rewrite (proj2 (Z.eqb_eq _ _) Hid).
  - intros Hid f. rewrite (admin_only_logged_in w u f H).
    now rewrite (proj2 (Z.eqb_neq _ _) Hid).
Qed.

Lemma admin_only_iff_id_is_1_witness :
  logged_in_as (sample_world (Some 2)) bob
  /\ ((forall f, admin_only f (sample_world (Some 2)) = f (sample_world (Some 2)))
      <-> User.id bob = 1)
  /\ (User.id bob <> 1 ->
      forall f, admin_only f (sample_world (Some 2))
                = (sample_world (Some 2), HTTPException 403)).
Proof.
  assert (H : logged_in_as (sample_world (Some 2)) bob)
    by (split; reflexivity).
  split; [exact H|].
  exact (admin_only_iff_id_is_1 (sample_world (Some 2)) bob H).
Defined.

(** C8: a logged-in user who has written no comment gets an
    [AttributeError] from [only_commenter], not a 403: the query returns no
    row and the guard reads [comment_author_id] of it. Nothing is deleted. *)
Theorem delete_comment_no_own_comment_raises
  (sqlite_integer python_int : string -> option Z) (w : World) (u : User.t)
  (post_id comment_id : string) :
  logged_in_as w u ->
  (forall c, In c (comments (db w)) -> Comment.comment_author_id c <> User.id u) ->
  scalar (fun c => Comment.comment_author_id c =? User.id u) (comments (db w))
  = None
  /\ delete_comment sqlite_integer python_int post_id comment_id w
     = (w, Raise AttributeError).
Proof.
  intros H Hnone. split.
  - apply scalar_none_iff. intros c Hc. apply Z.eqb_neq. now apply Hnone.
  - unfold delete_comment. now apply only_commenter_without_comment with u.
Qed.

Lemma delete_comment_no_own_comment_raises_witness :
  logged_in_as (sample_world (Some 4)) dave
  /\ scalar (fun c => Comment.comment_author_id c =? User.id dave)
       (comments (db (sample_world (Some 4)))) = None
  /\ delete_comment decimal_segment decimal_segment "1" "1"
       (sample_world (Some 4))
     = (sample_world (Some 4), Raise AttributeError).
Proof.
  assert (H : logged_in_as (sample_world (Some 4)) dave)
    by (split; reflexivity).
  split; [exact H|].
  apply (delete_comment_no_own_comment_raises decimal_segment decimal_segment
           (sample_world (Some 4)) dave "1" "1" H).
  intros c Hc. cbn in Hc.
  destruct Hc as [<-|[<-|[]]]; cbn; lia.
Defined.

(** ** Deleting a post *)

Lemma delete_post_existing (w : World) (post_id : Z) (p : BlogPost.t) :
  get BlogPost.id post_id (blog_posts (db w)) = Some p ->
  has_comments post_id (db w) = false ->
  exists r,
    delete_post post_id w
    = (set_db (mkDb (users (db w))
                 (delete BlogPost.id post_id (blog_posts (db w)))
                 (comments (db w))) w, r)
    /\ (r = Raise TypeError \/ r = HTTPException 404)
    /\ (session_ok w -> r = Raise TypeError).
Proof.
  intros Hget Hnone. destruct (get_some_pk BlogPost.id _ _ _ Hget) as [_ Hid].
  unfold delete_post, bind, get_or_404, delete_post_row.
  rewrite Hget, Hid. cbn. rewrite Hnone, current_user_cases.
  unfold session_ok. cbn.
  destruct (session w) as [user_id|]; cbn.
  - destruct (get User.id user_id (users (db w))) as [u|]; cbn.
    + eexists. split; [reflexivity|]. split; [now left | reflexivity].
    + eexists. split; [reflexivity|]. split; [now right|].
      intros Hok. now contradiction Hok.
  - eexists. split; [reflexivity|]. split; [now left | reflexivity].
Qed.

(** A post that has comments is not deleted: the commit fails before
    anything else of the view runs. *)
Lemma delete_post_commented (w : World) (post_id : Z) (p : BlogPost.t) :
  get BlogPost.id post_id (blog_posts (db w)) = Some p ->
  has_comments post_id (db w) = true ->
  delete_post post_id w = (w, Raise IntegrityError).
Proof.
  intros Hget Hsome. destruct (get_some_pk BlogPost.id _ _ _ Hget) as [_ Hid].
  unfold delete_post, bind, get_or_404, delete_post_row.
  rewrite Hget, Hid. cbn. now rewrite Hsome.
Qed.

Lemma delete_post_never_forbidden (w : World) (post_id : Z) :
  snd (delete_post post_id w) <> HTTPException 403.
Proof.
  unfold delete_post, bind, get_or_404, delete_post_row.
  destruct (get BlogPost.id post_id (blog_posts (db w))) as [p|]; cbn.
  - destruct (has_comments (BlogPost.id p) (db w)); cbn; [discriminate|].
    rewrite current_user_cases. cbn.
    destruct (session w) as [user_id|]; cbn; [|discriminate].
    destruct (get User.id user_id (users (db w))); cbn; discriminate.
  - destruct (fits_sqlite post_id); discriminate.
Qed.

(** C2, as stated: a post that has comments is not removed. An anonymous
    caller asks to delete post 1 of the sample deployment, which has two
    comments: the commit raises [IntegrityError] and the post is still in
    the table. *)
Lemma delete_post_keeps_commented_post :
  get BlogPost.id 1 (blog_posts (db (sample_world None))) = Some post1
  /\ delete_post 1 (sample_world None)
     = (sample_world None, Raise IntegrityError)
  /\ In post1 (blog_posts (db (fst (delete_post 1 (sample_world None))))).
Proof.
  split; [reflexivity|]. split; [reflexivity|]. cbn. now left.
Qed.

(** C2, amended: whoever asks (the session is arbitrary: anonymous, a
    member, the administrator), the request to delete an existing post is
    never refused with 403, and when the post has no comments it removes
    the post from the table. *)
Theorem delete_post_by_any_caller (w : World) (post_id : Z) (p : BlogPost.t) :
  get BlogPost.id post_id (blog_posts (db w)) = Some p ->
  snd (delete_post post_id w) <> HTTPException 403
  /\ (has_comments post_id (db w) = false ->
      blog_posts (db (fst (delete_post post_id w)))
      = delete BlogPost.id post_id (blog_posts (db w))
      /\ get BlogPost.id post_id (blog_posts (db (fst (delete_post post_id w))))
         = None
      /\ ~ In p (blog_posts (db (fst (delete_post post_id w))))).
Proof.
  intros Hget. split; [apply delete_post_never_forbidden|]. intros Hnone.
  destruct (delete_post_existing w post_id p Hget Hnone) as (r & -> & _ & _).
  cbn. split; [reflexivity|]. split; [apply get_delete_same|].
  rewrite delete_In. intros [_ Hne]. apply Hne.
  now destruct (get_some_pk BlogPost.id _ _ _ Hget).
Qed.

Lemma delete_post_by_any_caller_witness :
  has_comments 2 (db (sample_world None)) = false
  /\ snd (delete_post 2 (sample_world None)) <> HTTPException 403
  /\ blog_posts (db (fst (delete_post 2 (sample_world None))))
     = delete BlogPost.id 2 (blog_posts (db (sample_world None)))
  /\ get BlogPost.id 2 (blog_posts (db (fst (delete_post 2 (sample_world None)))))
     = None
  /\ ~ In post2 (blog_posts (db (fst (delete_post 2 (sample_world None))))).
Proof.
  destruct (delete_post_by_any_caller (sample_world None) 2 post2 eq_refl)
    as [Hnot403 Hremoved].
  split; [reflexivity|]. split; [exact Hnot403|]. exact (Hremoved eq_refl).
Defined.

(** C10, as stated: for a post that has comments nothing is committed and
    [redirect] is never called. Bob asks to delete post 1 of the sample
    deployment: the outcome is the [IntegrityError] of the commit, not the
    [TypeError] of [redirect], and the post is still stored. *)
Lemma delete_post_commit_can_fail :
  get BlogPost.id 1 (blog_posts (db (sample_world (Some 2)))) = Some post1
  /\ snd (delete_post 1 (sample_world (Some 2))) = Raise IntegrityError
  /\ snd (delete_post 1 (sample_world (Some 2))) <> Raise TypeError
  /\ get BlogPost.id 1
       (blog_posts (db (fst (delete_post 1 (sample_world (Some 2))))))
     = Some post1.
Proof.
  split; [reflexivity|]. split; [reflexivity|]. split; [discriminate|].
  reflexivity.
Qed.

(** C10, amended: deleting an existing post that has no comments commits
    the deletion and then fails: the world the request leaves behind has
    the post removed, the outcome is never a response, and it is the
    [TypeError] of the [redirect] call whenever the session's user can be
    loaded. *)
Theorem delete_post_commits_then_raises (w : World) (post_id : Z)
  (p : BlogPost.t) :
  get BlogPost.id post_id (blog_posts (db w)) = Some p ->
  has_comments post_id (db w) = false ->
  fst (delete_post post_id w)
  = set_db (mkDb (users (db w))
              (delete BlogPost.id post_id (blog_posts (db w)))
              (comments (db w))) w
  /\ get BlogPost.id post_id (blog_posts (db (fst (delete_post post_id w)))) = None
  /\ (forall r, snd (delete_post post_id w) <> Ok r)
  /\ (session_ok w -> snd (delete_post post_id w) = Raise TypeError).
Proof.
  intros Hget Hnone.
  destruct (delete_post_existing w post_id p Hget Hnone) as (r & -> & Hr & Hok).
  cbn. split; [reflexivity|]. split; [apply get_delete_same|]. split.
  - intros r'. destruct Hr as [-> | ->]; discriminate.
  - exact Hok.
Qed.

Lemma delete_post_commits_then_raises_witness :
  session_ok (sample_world (Some 2))
  /\ delete_post 2 (sample_world (Some 2))
     = (mkWorld (mkDb [alice; bob; carol; dave] [post1] [comment1; comment2])
          (Some 2) [],
        Raise TypeError).
Proof.
  assert (Hok : session_ok (sample_world (Some 2))) by (cbn; discriminate).
  split; [exact Hok|].
  destruct (delete_post_commits_then_raises (sample_world (Some 2)) 2 post2
              eq_refl eq_refl) as (Hw & _ & _ & Hr).
  rewrite (surjective_pairing (delete_post 2 (sample_world (Some 2)))).
  rewrite Hw, (Hr Hok). reflexivity.
Defined.

(** ** Updating a row in place *)

Section ReplaceFacts.

Context {row : Type} (pk : row -> Z).

Lemma get_replace_same (r' : row) (tbl : list row) (r : row) :
  get pk (pk r') tbl = Some r ->
  get pk (pk r') (map (fun q => if pk q =? pk r' then r' else q) tbl) = Some r'.
Proof.
  unfold get. induction tbl as [|x tbl IH]; cbn; [discriminate|].
  destruct (pk x =? pk r') eqn:E.
  - intros _. now rewrite Z.eqb_refl.
  - rewrite E. exact IH.
Qed.

Lemma get_replace_other (r' : row) (tbl : list row) (k : Z) :
  k <> pk r' ->
  get pk k (map (fun q => if pk q =? pk r' then r' else q) tbl) = get pk k tbl.
Proof.
  intros Hne. unfold get. induction tbl as [|x tbl IH]; cbn; [reflexivity|].
  destruct (pk x =? pk r') eqn:E.
  - apply Z.eqb_eq in E.
    rewrite (proj2 (Z.eqb_neq (pk r') k)) by lia.
    rewrite (proj2 (Z.eqb_neq (pk x) k)) by lia. exact IH.
  - destruct (pk x =? k); [reflexivity | exact IH].
Qed.

End ReplaceFacts.

(** ** Rendering *)

Lemma render_template_cases (template : string) (w : World) :
  render_template template w
  = (w, match session w with
        | None => Ok (RenderTemplate template false)
        | Some user_id =>
            match get User.id user_id (users (db w)) with
            | Some _ => Ok (RenderTemplate template true)
            | None => HTTPException 404
            end
        end).
Proof.
  unfold render_template, bind. rewrite current_user_cases.
  destruct (session w) as [user_id|]; [|reflexivity].
  now destruct (get User.id user_id (users (db w))).
Qed.

Lemma render_template_not_redirect (template : string) (w w' : World)
  (location : endpoint) :
  render_template template w <> (w', Ok (RedirectTo location)).
Proof.
  rewrite render_template_cases.
  destruct (session w) as [user_id|]; [|discriminate].
  destruct (get User.id user_id (users (db w))); discriminate.
Qed.

(** ** The views behind [admin_only] *)

Section ViewFacts.

Variables DataRequired URL : string -> bool.
Variable generate_password_hash : string -> string.

(** C4: a logged-in user whose id is not 1 is refused with 403 by the
    create-post route, whatever was submitted (nothing, an invalid form, a
    valid one), and the world, hence the posts table, is left as it was. *)
Theorem add_new_post_non_admin_forbidden (w : World) (u : User.t)
  (today : string) (submitted : option CreatePostForm.t) :
  logged_in_as w u -> User.id u <> 1 ->
  add_new_post DataRequired URL today submitted w = (w, HTTPException 403).
Proof.
  intros H Hid. unfold add_new_post.
  rewrite (admin_only_logged_in w u _ H).
  now rewrite (proj2 (Z.eqb_neq _ _) Hid).
Qed.

(** C9: with nobody logged in, the create-post and edit-post routes fail
    with an [AttributeError] ([admin_only] reads the [id] that the
    anonymous user lacks), not with 403; the world is left as it was. *)
Theorem admin_routes_anonymous_attribute_error (w : World) :
  session w = None ->
  current_user w = (w, Ok AnonymousUser)
  /\ identity_id AnonymousUser w = (w, Raise AttributeError)
  /\ (forall today submitted,
        add_new_post DataRequired URL today submitted w
        = (w, Raise AttributeError))
  /\ (forall post_id submitted,
        edit_post DataRequired URL post_id submitted w
        = (w, Raise AttributeError)).
Proof.
  intros H. split; [now apply current_user_anonymous|].
  split; [reflexivity|]. split; intros; now apply admin_only_anonymous.
Qed.

(** C5, amended: an edit-post request that ends in the redirect was sent
    by the administrator with a valid form for an existing post; it
    replaces title, subtitle, image URL and body by the submitted values
    and the author by the editor, keeps the id and the date, and leaves
    every other post, the users, the comments and the session alone. *)
Theorem edit_post_success_effect (w w' : World) (post_id : Z)
  (submitted : option CreatePostForm.t) (location : endpoint) :
  edit_post DataRequired URL post_id submitted w
  = (w', Ok (RedirectTo location)) ->
  exists form u p,
    submitted = Some form
    /\ validate_CreatePostForm DataRequired URL form = true
    /\ logged_in_as w u /\ User.id u = 1
    /\ get BlogPost.id post_id (blog_posts (db w)) = Some p
    /\ location = show_post_ep post_id
    /\ get BlogPost.id post_id (blog_posts (db w')) = Some (edited p form u)
    /\ BlogPost.id (edited p form u) = post_id
    /\ BlogPost.date (edited p form u) = BlogPost.date p
    /\ (forall k, k <> post_id ->
          get BlogPost.id k (blog_posts (db w'))
          = get BlogPost.id k (blog_posts (db w)))
    /\ users (db w') = users (db w)
    /\ comments (db w') = comments (db w)
    /\ session w' = session w
    /\ flashes w' = flashes w.
Proof.
  unfold edit_post, admin_only, bind. rewrite current_user_cases.
  destruct (session w) as [user_id|] eqn:Hs; cbn; [|discriminate].
  destruct (get User.id user_id (users (db w))) as [u|] eqn:Hu; cbn;
    [|discriminate].
  destruct (User.id u =? 1) eqn:Hadmin; cbn; [|discriminate].
  unfold edit_post_view, bind, get_or_404.
  destruct (get BlogPost.id post_id (blog_posts (db w))) as [p|] eqn:Hp; cbn;
    [|destruct (fits_sqlite post_id); discriminate].
  destruct submitted as [form|]; cbn.
  2:{ intros H. now apply render_template_not_redirect in H. }
  destruct (validate_CreatePostForm DataRequired URL form) eqn:Hv; cbn.
  2:{ intros H. now apply render_template_not_redirect in H. }
  rewrite current_user_cases, Hs, Hu. cbn.
  unfold update_post. cbn.
  destruct (existsb _ (blog_posts (db w))); cbn; [discriminate|].
  intros [= <- <-].
  destruct (get_some_pk User.id _ _ _ Hu) as [_ Hidu].
  destruct (get_some_pk BlogPost.id _ _ _ Hp) as [_ Hidp].
  exists form, u, p. cbn.
  split; [reflexivity|]. split; [exact Hv|].
  split; [split; rewrite Hidu; assumption|].
  split; [now apply Z.eqb_eq|]. split; [reflexivity|].
  split; [now rewrite Hidp|].
  split.
  { rewrite <- Hidp.
    apply (get_replace_same BlogPost.id (edited p form u) (blog_posts (db w)) p).
    cbn. now rewrite Hidp. }
  split; [exact Hidp|]. split; [reflexivity|].
  split.
  { intros k Hk.
    apply (get_replace_other BlogPost.id (edited p form u)). cbn. lia. }
  repeat split; try reflexivity. cbn. now rewrite Hs.
Qed.

(** ** Registration *)

(** C6: a register request that carries the email of an existing user
    leaves the database and the session as they were, so no second row
    appears and the existing row is untouched; when the form validates,
    the answer is the redirect to the login page, with the message
    flashed. *)
Theorem register_existing_email (w : World) (form : RegisterForm.t)
  (u : User.t) :
  In u (users (db w)) -> User.email u = RegisterForm.email form ->
  db (fst (register DataRequired generate_password_hash (Some form) w)) = db w
  /\ session (fst (register DataRequired generate_password_hash (Some form) w))
     = session w
  /\ (validate_RegisterForm DataRequired form = true ->
      register DataRequired generate_password_hash (Some form) w
      = (mkWorld (db w) (session w)
           (flashes w ++ ["A user with that email already exists."]),
         Ok (RedirectTo login_ep))).
Proof.
  intros Hin Hmail.
  assert (Hvalid : validate_RegisterForm DataRequired form = true ->
            register DataRequired generate_password_hash (Some form) w
            = (mkWorld (db w) (session w)
                 (flashes w ++ ["A user with that email already exists."]),
               Ok (RedirectTo login_ep))).
  { intros Hv. unfold register, validate_on_submit. rewrite Hv.
    unfold bind, gets.
    destruct (scalar (fun u0 => (User.email u0 =? RegisterForm.email form)%string)
                (users (db w))) as [u0|] eqn:Hq.
    - reflexivity.
    - exfalso. rewrite scalar_none_iff in Hq. specialize (Hq u Hin).
      cbn in Hq. rewrite Hmail, String.eqb_refl in Hq. discriminate. }
  destruct (validate_RegisterForm DataRequired form) eqn:Hv.
  - rewrite (Hvalid eq_refl). cbn. repeat split; reflexivity.
  - split; [|split; [|discriminate]];
      unfold register, validate_on_submit; rewrite Hv;
      rewrite render_template_cases; reflexivity.
Qed.

(** ** Commenting *)

(** C7: with nobody logged in, a request to a post page never changes the
    database, so no comment row is created; a valid comment submitted on
    an existing post is answered by the redirect to the login page, with
    the message flashed. *)
Theorem show_post_anonymous_comment (w : World) (post_id : Z)
  (submitted : option CommentForm.t) :
  session w = None ->
  db (fst (show_post DataRequired post_id submitted w)) = db w
  /\ (forall p form,
        get BlogPost.id post_id (blog_posts (db w)) = Some p ->
        submitted = Some form ->
        validate_CommentForm DataRequired form = true ->
        show_post DataRequired post_id submitted w
        = (mkWorld (db w) None
             (flashes w ++ ["You must login or register to comment."]),
           Ok (RedirectTo login_ep))).
Proof.
  intros Hs. split.
  - unfold show_post, bind, get_or_404.
    destruct (get BlogPost.id post_id (blog_posts (db w))) as [p|];
      [|now destruct (fits_sqlite post_id)].
    destruct (validate_on_submit (validate_CommentForm DataRequired) submitted);
      [rewrite current_user_cases, Hs | rewrite render_template_cases];
      reflexivity.
  - intros p form Hp -> Hv.
    unfold show_post, bind, get_or_404, validate_on_submit.
    rewrite Hp, Hv, current_user_cases, Hs. cbn. now rewrite Hs.
Qed.

End ViewFacts.

(** ** The theorems at the sample deployment *)

Lemma add_new_post_non_admin_forbidden_witness :
  logged_in_as (sample_world (Some 2)) bob
  /\ User.id bob <> 1
  /\ add_new_post nonempty http_prefixed "March 03, 2024" (Some sample_edit)
       (sample_world (Some 2))
     = (sample_world (Some 2), HTTPException 403).
Proof.
  assert (H : logged_in_as (sample_world (Some 2)) bob) by (split; reflexivity).
  assert (Hid : User.id bob <> 1) by (cbn; lia).
  split; [exact H|]. split; [exact Hid|].
  exact (add_new_post_non_admin_forbidden nonempty http_prefixed
           (sample_world (Some 2)) bob "March 03, 2024" (Some sample_edit) H Hid).
Defined.

Lemma admin_routes_anonymous_attribute_error_witness :
  add_new_post nonempty http_prefixed "March 03, 2024" (Some sample_edit)
    (sample_world None)
  = (sample_world None, Raise AttributeError)
  /\ edit_post nonempty http_prefixed 1 (Some sample_edit) (sample_world None)
     = (sample_world None, Raise AttributeError).
Proof.
  destruct (admin_routes_anonymous_attribute_error nonempty http_prefixed
              (sample_world None) eq_refl) as (_ & _ & Hadd & Hedit).
  split; [apply Hadd | apply Hedit].
Defined.

Lemma edit_post_success_effect_witness :
  edit_post nonempty http_prefixed 1 (Some sample_edit) (sample_world (Some 1))
  = (edited_world, Ok (RedirectTo (show_post_ep 1)))
  /\ get BlogPost.id 1 (blog_posts (db edited_world))
     = Some (edited post1 sample_edit alice)
  /\ get BlogPost.id 2 (blog_posts (db edited_world)) = Some post2.
Proof.
  assert (Hrun : edit_post nonempty http_prefixed 1 (Some sample_edit)
                   (sample_world (Some 1))
                 = (edited_world, Ok (RedirectTo (show_post_ep 1))))
    by reflexivity.
  split; [exact Hrun|].
  destruct (edit_post_success_effect nonempty http_prefixed _ _ _ _ _ Hrun)
    as (form & u & p & Hform & _ & [_ Hu] & Hid & Hp & _ & Hget & _ & _
        & Hother & _).
  injection Hform as <-.
  rewrite Hid in Hu. injection Hu as <-. injection Hp as <-.
  split; [exact Hget|].
  rewrite (Hother 2); [reflexivity | lia].
Defined.

(** C5, as stated: the date of a post is not replaced by an edit. The same
    edit by the same editor on two deployments that differ in the date of
    post 1 leaves two different rows, each with its old date. *)
Lemma edit_post_keeps_the_date :
  ~ edit_replaces_all_but_id nonempty http_prefixed.
Proof.
  intros [mk Hmk].
  assert (H1 := Hmk (sample_world (Some 1)) edited_world 1 sample_edit alice
                  (show_post_ep 1) (conj eq_refl eq_refl) eq_refl).
  assert (H2 := Hmk redated_world
                  (mkWorld
                     (mkDb [alice; bob; carol; dave]
                        [BlogPost.Build 1 "Cacti" "Plural" "May 05, 2020"
                           "Spikier." 1 "http://x.com/cacti.png"; post2]
                        [comment1; comment2])
                     (Some 1) [])
                  1 sample_edit alice
                  (show_post_ep 1) (conj eq_refl eq_refl) eq_refl).
  cbv in H1, H2. rewrite <- H2 in H1. discriminate H1.
Qed.

Lemma register_existing_email_witness :
  In bob (users (db (sample_world None)))
  /\ register nonempty sample_hash
       (Some (RegisterForm.Build "bob@x.com" "pw" "Bobby")) (sample_world None)
     = (mkWorld sample_db None ["A user with that email already exists."],
        Ok (RedirectTo login_ep)).
Proof.
  assert (Hin : In bob (users (db (sample_world None))))
    by (cbn; tauto).
  split; [exact Hin|].
  destruct (register_existing_email nonempty sample_hash (sample_world None)
              (RegisterForm.Build "bob@x.com" "pw" "Bobby") bob Hin eq_refl)
    as (_ & _ & Hvalid).
  exact (Hvalid eq_refl).
Defined.

Lemma show_post_anonymous_comment_witness :
  db (fst (show_post nonempty 1 (Some (CommentForm.Build "hi"))
             (sample_world None)))
  = sample_db
  /\ show_post nonempty 1 (Some (CommentForm.Build "hi")) (sample_world None)
     = (mkWorld sample_db None ["You must login or register to comment."],
        Ok (RedirectTo login_ep)).
Proof.
  destruct (show_post_anonymous_comment nonempty (sample_world None) 1
              (Some (CommentForm.Build "hi")) eq_refl) as [Hdb Hredirect].
  split; [exact Hdb|].
  exact (Hredirect post1 (CommentForm.Build "hi") eq_refl eq_refl eq_refl).
Defined.

(** ** Keys stay distinct *)

Section KeyFacts.

Context {row : Type} (pk : row -> Z).

Lemma next_id_above (tbl : list row) (r : row) :
  In r tbl -> pk r < next_id pk tbl.
Proof.
  unfold next_id. induction tbl as [|x tbl IH]; [contradiction|].
  change (fold_right Z.max 0 (map pk (x :: tbl)))
    with (Z.max (pk x) (fold_right Z.max 0 (map pk tbl))).
  pose proof (Z.le_max_l (pk x) (fold_right Z.max 0 (map pk tbl))).
  pose proof (Z.le_max_r (pk x) (fold_right Z.max 0 (map pk tbl))).
  intros [<- | Hin]; [lia|]. specialize (IH Hin). lia.
Qed.

Lemma distinct_snoc (tbl : list row) (r : row) :
  pk r = next_id pk tbl ->
  NoDup (map pk tbl) -> NoDup (map pk (tbl ++ [r])).
Proof.
  intros Hr Hnd. rewrite map_app. cbn.
  apply NoDup_app; [exact Hnd | repeat constructor; intros [] |].
  intros k Hk [<- | []].
  apply in_map_iff in Hk. destruct Hk as (x & Hx & Hin).
  pose proof (next_id_above tbl x Hin). lia.
Qed.

Lemma distinct_delete (k : Z) (tbl : list row) :
  NoDup (map pk tbl) -> NoDup (map pk (delete pk k tbl)).
Proof.
  unfold delete. induction tbl as [|x tbl IH]; cbn; intros Hnd; [constructor|].
  inversion Hnd as [|? ? Hnotin Hnd']; subst.
  destruct (negb (pk x =? k)); cbn; [|now apply IH].
  constructor; [|now apply IH].
  intros Hin. apply Hnotin. apply in_map_iff in Hin.
  destruct Hin as (y & Hy & Hin). apply filter_In in Hin.
  rewrite <- Hy. apply in_map. tauto.
Qed.

Lemma keys_replace (r' : row) (tbl : list row) :
  map pk (map (fun q => if pk q =? pk r' then r' else q) tbl) = map pk tbl.
Proof.
  induction tbl as [|x tbl IH]; cbn; [reflexivity|]. rewrite IH. f_equal.
  destruct (pk x =? pk r') eqn:E; [|reflexivity].
  apply Z.eqb_eq in E. now rewrite E.
Qed.

Lemma get_of_member (tbl : list row) (r : row) :
  In r tbl -> get pk (pk r) tbl <> None.
Proof.
  intros Hin Hnone. unfold get in Hnone.
  pose proof (find_none _ _ Hnone r Hin) as H. cbn in H.
  rewrite Z.eqb_refl in H. discriminate.
Qed.

Lemma get_snoc_found (k : Z) (tbl : list row) (r : row) :
  get pk k tbl <> None -> get pk k (tbl ++ [r]) <> None.
Proof.
  unfold get. induction tbl as [|x tbl IH]; cbn; [congruence|].
  destruct (pk x =? k); [discriminate | exact IH].
Qed.

End KeyFacts.

(** ** Rules for [wp] *)

Section WpRules.

Context {A : Type} (Q : A -> World -> Prop) (E : World -> Prop).

Lemma wp_ret (a : A) (w : World) : Q a w -> wp (ret a) Q E w.
Proof. intros H; exact H. Qed.

Lemma wp_abort (code : Z) (w : World) : E w -> wp (abort code) Q E w.
Proof. intros H; exact H. Qed.

Lemma wp_raise (e : exn) (w : World) : E w -> wp (raise e) Q E w.
Proof. intros H; exact H. Qed.

Lemma wp_gets (f : World -> A) (w : World) : Q (f w) w -> wp (gets f) Q E w.
Proof. intros H; exact H. Qed.

Lemma wp_bind {B : Type} (c : M B) (k : B -> M A) (w : World) :
  wp c (fun b w' => wp (k b) Q E w') E w -> wp (bind c k) Q E w.
Proof.
  unfold wp, bind. destruct (c w) as [w' [b|code|e]]; intros H; exact H.
Qed.

End WpRules.

Lemma wp_modify (Q : unit -> World -> Prop) (E : World -> Prop)
  (f : World -> World) (w : World) :
  Q tt (f w) -> wp (modify f) Q E w.
Proof. intros H; exact H. Qed.

Lemma wp_redirect (Q : response -> World -> Prop) (E : World -> Prop)
  (location : endpoint) (kwargs : list string) (w : World) :
  Q (RedirectTo location) w -> E w -> wp (redirect location kwargs) Q E w.
Proof.
  intros HQ HE. unfold wp, redirect.
  now destruct (forallb _ kwargs).
Qed.

Lemma wp_current_user (Q : identity -> World -> Prop) (E : World -> Prop)
  (w : World) :
  (forall i, Q i w) -> E w -> wp current_user Q E w.
Proof.
  intros HQ HE. unfold wp. rewrite current_user_cases.
  destruct (session w) as [user_id|]; [|apply HQ].
  destruct (get User.id user_id (users (db w))); [apply HQ | exact HE].
Qed.

Lemma wp_identity_id (Q : Z -> World -> Prop) (E : World -> Prop)
  (i : identity) (w : World) :
  (forall k, Q k w) -> E w -> wp (identity_id i) Q E w.
Proof.
  intros HQ HE. destruct i; [exact HE | apply HQ].
Qed.

Lemma wp_render_template (Q : response -> World -> Prop) (E : World -> Prop)
  (template : string) (w : World) :
  (forall r, Q r w) -> E w -> wp (render_template template) Q E w.
Proof.
  intros HQ HE. unfold wp. rewrite render_template_cases.
  destruct (session w) as [user_id|]; [|apply HQ].
  destruct (get User.id user_id (users (db w))); [apply HQ | exact HE].
Qed.

Lemma wp_get_or_404 {row : Type} (pk : row -> Z) (tbl : Db -> list row)
  (Q : row -> World -> Prop) (E : World -> Prop) (k : Z) (w : World) :
  (forall r, In r (tbl (db w)) -> pk r = k -> Q r w) -> E w ->
  wp (get_or_404 pk tbl k) Q E w.
Proof.
  intros HQ HE. unfold wp, get_or_404.
  destruct (get pk k (tbl (db w))) as [r|] eqn:Hget;
    [|now destruct (fits_sqlite k)].
  destruct (get_some_pk pk _ _ _ Hget). now apply HQ.
Qed.

Lemma wp_get_or_404_text {row : Type} (pk : row -> Z) (tbl : Db -> list row)
  (Q : row -> World -> Prop) (E : World -> Prop) (key : option Z) (w : World) :
  (forall r, In r (tbl (db w)) -> Q r w) -> E w ->
  wp (get_or_404_text pk tbl key) Q E w.
Proof.
  intros HQ HE. unfold wp, get_or_404_text.
  destruct key as [k|]; [|exact HE].
  destruct (get pk k (tbl (db w))) as [r|] eqn:Hget; [|exact HE].
  destruct (get_some_pk pk _ _ _ Hget). now apply HQ.
Qed.

(** ** Every view keeps the world well formed *)

Lemma well_formed_flashed (w : World) (msg : string) :
  well_formed w ->
  well_formed (mkWorld (db w) (session w) (flashes w ++ [msg])).
Proof. intros H; exact H. Qed.

Lemma well_formed_login (w : World) (u : User.t) :
  well_formed w -> In u (users (db w)) ->
  well_formed (set_session (Some (User.id u)) w).
Proof.
  intros [Hk _] Hin. split; [exact Hk|].
  unfold session_ok. cbn. now apply get_of_member.
Qed.

Lemma well_formed_logout (w : World) :
  well_formed w -> well_formed (set_session None w).
Proof. intros [Hk _]. split; [exact Hk | exact I]. Qed.

Lemma wp_add_user (email password name : string) (w : World) :
  well_formed w ->
  wp (add_user email password name)
    (fun u w' => well_formed w' /\ In u (users (db w'))) well_formed w.
Proof.
  intros Hw. unfold wp, add_user.
  destruct (existsb _ (users (db w))); [exact Hw|]. cbn.
  destruct Hw as [(Hu & Hp & Hc) Hs].
  split; [split; [split; [|split] |] | apply in_or_app; right; now left].
  - cbn. now apply distinct_snoc.
  - exact Hp.
  - exact Hc.
  - unfold session_ok in *. cbn. destruct (session w); [|exact I].
    now apply get_snoc_found.
Qed.

Lemma wp_add_post (title subtitle body img_url : string) (author : Z)
  (date : string) (w : World) :
  well_formed w ->
  wp (add_post title subtitle body img_url author date)
    (fun _ => well_formed) well_formed w.
Proof.
  intros Hw. unfold wp, add_post.
  destruct (existsb _ (blog_posts (db w))); [exact Hw|]. cbn.
  destruct Hw as [(Hu & Hp & Hc) Hs].
  split; [split; [|split] | exact Hs]; cbn; try assumption.
  now apply distinct_snoc.
Qed.

Lemma wp_add_comment (text : string) (author post : Z) (w : World) :
  well_formed w ->
  wp (add_comment text author post) (fun _ => well_formed) well_formed w.
Proof.
  intros [(Hu & Hp & Hc) Hs]. unfold wp, add_comment. cbn.
  split; [split; [|split] | exact Hs]; cbn; try assumption.
  now apply distinct_snoc.
Qed.

Lemma wp_update_post (p : BlogPost.t) (w : World) :
  well_formed w ->
  wp (update_post p) (fun _ => well_formed) well_formed w.
Proof.
  intros Hw. unfold wp, update_post.
  destruct (existsb _ (blog_posts (db w))); [exact Hw|]. cbn.
  destruct Hw as [(Hu & Hp & Hc) Hs].
  split; [split; [|split] | exact Hs]; cbn; try assumption.
  now rewrite (keys_replace BlogPost.id p).
Qed.

Lemma wp_delete_post_row (p : BlogPost.t) (w : World) :
  well_formed w ->
  wp (delete_post_row p) (fun _ => well_formed) well_formed w.
Proof.
  intros Hw. unfold wp, delete_post_row. cbn.
  destruct (has_comments (BlogPost.id p) (db w)); [exact Hw|].
  destruct Hw as [(Hu & Hp & Hc) Hs].
  split; [split; [|split] | exact Hs]; cbn; try assumption.
  now apply distinct_delete.
Qed.

Lemma wp_delete_comment_row (c : Comment.t) (w : World) :
  well_formed w ->
  wp (delete_comment_row c) (fun _ => well_formed) well_formed w.
Proof.
  intros [(Hu & Hp & Hc) Hs]. unfold wp, delete_comment_row, modify. cbn.
  split; [split; [|split] | exact Hs]; cbn; try assumption.
  now apply distinct_delete.
Qed.

Lemma admin_only_keeps (f : M response) :
  keeps_well_formed f -> keeps_well_formed (admin_only f).
Proof.
  intros Hf w Hw. unfold admin_only.
  apply wp_bind, wp_current_user; [intros i | exact Hw].
  apply wp_bind, wp_identity_id; [intros k | exact Hw].
  destruct (negb (k =? 1)); [exact Hw | now apply Hf].
Qed.

Lemma only_commenter_keeps (f : M response) :
  keeps_well_formed f -> keeps_well_formed (only_commenter f).
Proof.
  intros Hf w Hw. unfold only_commenter.
  apply wp_bind, wp_current_user; [intros i | exact Hw].
  apply wp_bind, wp_identity_id; [intros k | exact Hw].
  apply wp_bind, wp_gets.
  apply wp_bind, wp_current_user; [intros i' | exact Hw].
  destruct (negb (is_authenticated i')); [exact Hw|].
  apply wp_bind, wp_identity_id; [intros k' | exact Hw].
  apply wp_bind.
  destruct (scalar _ (comments (db w))) as [c|]; [|exact Hw].
  apply wp_ret.
  destruct (negb (k' =? Comment.comment_author_id c));
    [exact Hw | now apply Hf].
Qed.

Lemma delete_post_keeps (post_id : Z) : keeps_well_formed (delete_post post_id).
Proof.
  intros w Hw. unfold delete_post.
  apply wp_bind, wp_get_or_404; [intros p _ _ | exact Hw].
  apply wp_bind.
  pose proof (wp_delete_post_row p w Hw) as H.
  unfold wp in *. destruct (delete_post_row p w) as [w' [[]|code|e]];
    [|exact H|exact H].
  apply wp_bind, wp_current_user; [intros i | exact H].
  now apply wp_redirect.
Qed.

Lemma delete_comment_keeps (sqlite_integer python_int : string -> option Z)
  (post_id comment_id : string) :
  keeps_well_formed (delete_comment
      sqlite_integer python_int post_id comment_id).
Proof.
  apply only_commenter_keeps. intros w Hw. unfold delete_comment_view.
  apply wp_bind, wp_get_or_404_text; [intros c _ | exact Hw].
  apply wp_bind.
  pose proof (wp_delete_comment_row c w Hw) as H.
  unfold wp in *. destruct (delete_comment_row c w) as [w' [[]|code|e]];
    [|exact H|exact H].
  unfold url_for_show_post, bind.
  destruct (python_int post_id) as [n|]; cbn; exact H.
Qed.

Lemma logout_keeps : keeps_well_formed logout.
Proof.
  intros w Hw. unfold logout, logout_user.
  apply wp_bind, wp_bind, wp_current_user; [intros i | exact Hw].
  apply wp_modify.
  apply wp_redirect; now apply well_formed_logout.
Qed.

Lemma int_converter_keeps (k : Z) (view : Z -> M response) :
  (forall n, keeps_well_formed (view n)) ->
  keeps_well_formed (int_converter k view).
Proof.
  intros Hview w Hw. unfold int_converter.
  destruct (k <? 0); [exact Hw | now apply Hview].
Qed.

Lemma string_converter_keeps (s : string) (view : string -> M response) :
  (forall t, keeps_well_formed (view t)) ->
  keeps_well_formed (string_converter s view).
Proof.
  intros Hview w Hw. unfold string_converter.
  destruct (is_segment s); [now apply Hview | exact Hw].
Qed.

Section RoutingFacts.

Variables DataRequired URL : string -> bool.
Variable generate_password_hash : string -> string.
Variable check_password_hash : string -> string -> bool.
Variables sqlite_integer python_int : string -> option Z.

Lemma register_keeps (submitted : option RegisterForm.t) :
  keeps_well_formed (register DataRequired generate_password_hash submitted).
Proof.
  intros w Hw. unfold register.
  destruct (validate_on_submit _ submitted) as [form|];
    [|now apply wp_render_template].
  apply wp_bind, wp_gets.
  destruct (scalar _ (users (db w))) as [u|].
  - unfold flash. apply wp_bind, wp_modify.
    apply wp_redirect; now apply well_formed_flashed.
  - apply wp_bind.
    pose proof (wp_add_user (RegisterForm.email form)
                  (generate_password_hash (RegisterForm.password form))
                  (RegisterForm.name form) w Hw) as H.
    unfold wp in *. destruct (add_user _ _ _ w) as [w' [u|code|e]];
      [|exact H|exact H].
    destruct H as [Hw' Hin]. unfold login_user.
    apply wp_bind, wp_modify.
    apply wp_redirect; now apply well_formed_login.
Qed.

Lemma login_keeps (submitted : option LoginForm.t) :
  keeps_well_formed (login DataRequired check_password_hash submitted).
Proof.
  intros w Hw. unfold login.
  destruct (validate_on_submit _ submitted) as [form|];
    [|now apply wp_render_template].
  apply wp_bind, wp_gets.
  destruct (scalar _ (users (db w))) as [u|] eqn:Hq.
  - apply find_some in Hq. destruct Hq as [Hin _].
    destruct (negb (check_password_hash _ _)).
    + unfold flash. apply wp_bind, wp_modify.
      apply wp_redirect; now apply well_formed_flashed.
    + unfold login_user. apply wp_bind, wp_modify.
      apply wp_redirect; now apply well_formed_login.
  - unfold flash. apply wp_bind, wp_modify.
    apply wp_redirect; now apply well_formed_flashed.
Qed.

Lemma show_post_keeps (post_id : Z) (submitted : option CommentForm.t) :
  keeps_well_formed (show_post DataRequired post_id submitted).
Proof.
  intros w Hw. unfold show_post.
  apply wp_bind, wp_get_or_404; [intros p _ _ | exact Hw].
  destruct (validate_on_submit _ submitted) as [form|];
    [|now apply wp_render_template].
  apply wp_bind, wp_current_user; [intros i | exact Hw].
  destruct (negb (is_authenticated i)).
  - unfold flash. apply wp_bind, wp_modify.
    apply wp_redirect; now apply well_formed_flashed.
  - apply wp_bind, wp_identity_id; [intros k | exact Hw].
    apply wp_bind.
    pose proof (wp_add_comment (CommentForm.comment form) k (BlogPost.id p)
                  w Hw) as H.
    unfold wp in *. destruct (add_comment _ _ _ w) as [w' [c|code|e]];
      [|exact H|exact H].
    now apply wp_render_template.
Qed.

Lemma add_new_post_keeps (today : string)
  (submitted : option CreatePostForm.t) :
  keeps_well_formed (add_new_post DataRequired URL today submitted).
Proof.
  apply admin_only_keeps. intros w Hw. unfold add_new_post_view.
  destruct (validate_on_submit _ submitted) as [form|];
    [|now apply wp_render_template].
  apply wp_bind, wp_current_user; [intros i | exact Hw].
  apply wp_bind, wp_identity_id; [intros k | exact Hw].
  apply wp_bind.
  pose proof (wp_add_post (CreatePostForm.title form)
                (CreatePostForm.subtitle form) (CreatePostForm.body form)
                (CreatePostForm.img_url form) k today w Hw) as H.
  unfold wp in *. destruct (add_post _ _ _ _ _ _ w) as [w' [p|code|e]];
    [|exact H|exact H].
  now apply wp_redirect.
Qed.

Lemma edit_post_keeps (post_id : Z) (submitted : option CreatePostForm.t) :
  keeps_well_formed (edit_post DataRequired URL post_id submitted).
Proof.
  apply admin_only_keeps. intros w Hw. unfold edit_post_view.
  apply wp_bind, wp_get_or_404; [intros p _ _ | exact Hw].
  destruct (validate_on_submit _ submitted) as [form|];
    [|now apply wp_render_template].
  apply wp_bind, wp_current_user; [intros i | exact Hw].
  apply wp_bind, wp_identity_id; [intros k | exact Hw].
  apply wp_bind.
  match goal with
  | |- wp (update_post ?q) _ _ _ =>
      pose proof (wp_update_post q w Hw) as H;
      unfold wp in *; destruct (update_post q w) as [w' [[]|code|e]];
      [|exact H|exact H]
  end.
  now apply wp_redirect.
Qed.

Lemma dispatch_keeps (r : request) :
  keeps_well_formed
    (dispatch DataRequired URL generate_password_hash check_password_hash
        sqlite_integer python_int r).
Proof.
  destruct r; cbn.
  - apply register_keeps.
  - apply login_keeps.
  - apply logout_keeps.
  - apply int_converter_keeps. intros n. apply show_post_keeps.
  - apply add_new_post_keeps.
  - apply int_converter_keeps. intros n. apply edit_post_keeps.
  - apply int_converter_keeps. exact delete_post_keeps.
  - apply string_converter_keeps. intros comment_id'.
    apply string_converter_keeps. intros post_id'.
    apply delete_comment_keeps.
Qed.

(** Whatever requests were served since the tables were created, keys are
    distinct and the session names a stored user. *)
Lemma reachable_well_formed (w : World) :
  reachable DataRequired URL generate_password_hash check_password_hash
      sqlite_integer python_int w ->
  well_formed w.
Proof.
  induction 1 as [|w r _ IH].
  - split; [repeat split; constructor | exact I].
  - pose proof (dispatch_keeps r w IH) as H. unfold wp in H.
    destruct (dispatch _ _ _ _ _ _ r w) as [w' [a|code|e]]; exact H.
Qed.

(** In a reachable world the delete-post request of an existing post that
    has no comments always ends in the [TypeError], with the post gone. *)
Lemma delete_post_reachable (w : World) (post_id : Z) (p : BlogPost.t) :
  reachable DataRequired URL generate_password_hash check_password_hash
      sqlite_integer python_int w ->
  get BlogPost.id post_id (blog_posts (db w)) = Some p ->
  has_comments post_id (db w) = false ->
  delete_post post_id w
  = (set_db (mkDb (users (db w))
               (delete BlogPost.id post_id (blog_posts (db w)))
               (comments (db w))) w,
     Raise TypeError).
Proof.
  intros Hreach Hget Hnone.
  destruct (delete_post_existing w post_id p Hget Hnone)
    as (r & Hrun & _ & Hok).
  rewrite Hrun. f_equal. apply Hok.
  now destruct (reachable_well_formed w Hreach).
Qed.

(** In a reachable world the author's delete-comment request, whose
    first path segment the database reads as the key of the comment, takes
    out that one row and keeps the others in place. The delete is committed
    before the redirect is built: the outcome is the redirect to the post
    page when Python reads the second segment as an integer, and a
    [ValueError] when it does not. *)
Lemma delete_comment_by_author_exactly (w : World) (u : User.t)
  (c : Comment.t) (post_id comment_id : string) (k : Z) :
  reachable DataRequired URL generate_password_hash check_password_hash
      sqlite_integer python_int w ->
  logged_in_as w u ->
  sqlite_integer comment_id = Some k ->
  get Comment.id k (comments (db w)) = Some c ->
  Comment.comment_author_id c = User.id u ->
  exists before after,
    comments (db w) = before ++ c :: after
    /\ delete_comment sqlite_integer python_int post_id comment_id w
       = (set_db (mkDb (users (db w)) (blog_posts (db w)) (before ++ after)) w,
          match python_int post_id with
          | Some n => Ok (RedirectTo (show_post_ep n))
          | None => Raise ValueError
          end).
Proof.
  intros Hreach Hu Hk Hget Hc.
  destruct (reachable_well_formed w Hreach) as [(_ & _ & Hnd) _].
  destruct (delete_splits Comment.id k _ c Hnd Hget)
    as (before & after & Hsplit & Hdel).
  exists before, after. split; [exact Hsplit|].
  rewrite (delete_comment_by_author sqlite_integer python_int w u c post_id
             comment_id k Hu Hk Hget Hc).
  now rewrite Hdel.
Qed.

End RoutingFacts.

(** ** Reachable worlds *)

Section ServingFacts.

Variables DataRequired URL : string -> bool.
Variable generate_password_hash : string -> string.
Variable check_password_hash : string -> string -> bool.
Variables sqlite_integer python_int : string -> option Z.

Lemma reachable_serve (rs : list request) (w : World) :
  reachable DataRequired URL generate_password_hash check_password_hash
      sqlite_integer python_int w ->
  reachable DataRequired URL generate_password_hash check_password_hash
      sqlite_integer python_int
    (serve DataRequired URL generate_password_hash check_password_hash
        sqlite_integer python_int rs w).
Proof.
  revert w. induction rs as [|r rs IH]; intros w Hw; [exact Hw|].
  cbn. apply IH. now apply reachable_step.
Qed.

End ServingFacts.

Lemma sample_world_served :
  serve nonempty http_prefixed sample_hash sample_check
      decimal_segment decimal_segment sample_requests
    fresh_world
  = sample_world (Some 4).
Proof. reflexivity. Qed.

Lemma sample_world_reachable :
  reachable nonempty http_prefixed sample_hash sample_check
      decimal_segment decimal_segment
    (sample_world (Some 4)).
Proof.
  rewrite <- sample_world_served. apply reachable_serve. apply reachable_init.
Qed.

(** ** What one request can change *)

Ltac unfold_views :=
  unfold dispatch, int_converter, string_converter, register, login,
    logout, logout_user, show_post, add_new_post,
    add_new_post_view, edit_post, edit_post_view, delete_post, delete_comment,
    delete_comment_view, get_all_posts, about, contact, admin_only,
    only_commenter, render_template,
    current_user, load_user, get_or_404, get_or_404_text, url_for_show_post,
    login_user, flash,
    redirect, add_user, add_post, add_comment, update_post, delete_post_row,
    delete_comment_row, identity_id, is_authenticated, validate_on_submit,
    bind, ret, abort, raise, gets, modify, set_db, set_session in *.

(** Case analysis on every test a view makes, innermost first. *)
Ltac split_matches :=
  repeat (cbn in *;
          match goal with
          | |- context [match ?x with _ => _ end] =>
              lazymatch x with
              | context [match _ with _ => _ end] => fail
              | _ => destruct x eqn:?
              end
          end).

(** Put the recorded tests in a usable form and drop impossible cases. *)
Ltac tidy :=
  repeat match goal with
         | H : Some _ = Some _ |- _ => injection H as H; try subst
         | H : Some _ = None |- _ => discriminate H
         | H : None = Some _ |- _ => discriminate H
         | H : negb _ = false |- _ => apply negb_false_iff in H
         | H : negb _ = true |- _ => apply negb_true_iff in H
         | H1 : ?x = Some _, H2 : ?x = Some _ |- _ =>
             rewrite H1 in H2; injection H2 as H2; try subst
         | H1 : ?x = Some _, H2 : ?x = None |- _ =>
             rewrite H1 in H2; discriminate H2
         | H1 : ?x = true, H2 : ?x = false |- _ =>
             rewrite H1 in H2; discriminate H2
         end.

Ltac run_views := unfold_views; split_matches; tidy; cbn in *.

Lemma logged_in_as_intro (w : World) (k : Z) (u : User.t) :
  session w = Some k -> get User.id k (users (db w)) = Some u ->
  logged_in_as w u.
Proof.
  intros Hs Hu. destruct (get_some_pk User.id _ _ _ Hu) as [_ Hid].
  split; rewrite Hid; assumption.
Qed.

Lemma in_replace {row : Type} (test : row -> bool) (r' r : row)
  (tbl : list row) :
  In r (map (fun q => if test q then r' else q) tbl) -> r = r' \/ In r tbl.
Proof.
  intros Hin. apply in_map_iff in Hin. destruct Hin as (q & Hq & Hin).
  destruct (test q); [left | right]; congruence.
Qed.

Lemma in_snoc {A : Type} (x y : A) (l : list A) :
  In x (l ++ [y]) -> In x l \/ x = y.
Proof.
  intros Hin. apply in_app_or in Hin.
  destruct Hin as [Hin | [Hin | []]]; [left | right]; congruence.
Qed.

Section StepFacts.

Variables DataRequired URL : string -> bool.
Variable generate_password_hash : string -> string.
Variable check_password_hash : string -> string -> bool.
Variables sqlite_integer python_int : string -> option Z.

(** No request removes or rewrites a user: the table stays as it is, or a
    validated registration appends one row, with an email no stored user
    has, the next free id, and the hash of the submitted password in place
    of the password. *)
Theorem dispatch_users_step (r : request) (w : World) :
  users (db (fst (dispatch DataRequired URL generate_password_hash
                    check_password_hash
                    sqlite_integer python_int r w))) = users (db w)
  \/ exists form,
       r = req_register (Some form)
       /\ validate_RegisterForm DataRequired form = true
       /\ (forall u, In u (users (db w)) ->
             User.email u <> RegisterForm.email form)
       /\ users (db (fst (dispatch DataRequired URL generate_password_hash
                    check_password_hash
                    sqlite_integer python_int r w)))
          = users (db w)
            ++ [User.Build (next_id User.id (users (db w)))
                  (RegisterForm.email form)
                  (generate_password_hash (RegisterForm.password form))
                  (RegisterForm.name form)].
Proof.
  destruct r; run_views; try (left; reflexivity).
  right. eexists. split; [reflexivity|]. split; [assumption|].
  split; [|reflexivity].
  intros u Hin Heq.
  match goal with
  | H : scalar _ _ = None |- _ =>
      rewrite scalar_none_iff in H; specialize (H u Hin); cbn in H;
      rewrite Heq, String.eqb_refl in H; discriminate
  end.
Qed.

(** A post row that a request brings into the table, by creating or by
    editing, comes from a validated form sent by the logged-in user with
    id 1, and names that user as its author. *)
Theorem dispatch_posts_step (r : request) (w : World) (p : BlogPost.t) :
  In p (blog_posts (db (fst (dispatch DataRequired URL generate_password_hash
                    check_password_hash
                    sqlite_integer python_int r w)))) ->
  ~ In p (blog_posts (db w)) ->
  exists u form,
    logged_in_as w u /\ User.id u = 1
    /\ validate_CreatePostForm DataRequired URL form = true
    /\ BlogPost.author_id p = 1
    /\ BlogPost.title p = CreatePostForm.title form
    /\ BlogPost.subtitle p = CreatePostForm.subtitle form
    /\ BlogPost.body p = CreatePostForm.body form
    /\ BlogPost.img_url p = CreatePostForm.img_url form
    /\ ((exists today,
           r = req_new_post today (Some form)
           /\ BlogPost.date p = today
           /\ BlogPost.id p = next_id BlogPost.id (blog_posts (db w)))
        \/ (exists old,
              r = req_edit_post (BlogPost.id p) (Some form)
              /\ get BlogPost.id (BlogPost.id p) (blog_posts (db w)) = Some old
              /\ BlogPost.date p = BlogPost.date old)).
Proof.
  destruct r; run_views; intros Hin Hnot; try contradiction;
    try (apply delete_In in Hin; now destruct Hin).
  - apply in_snoc in Hin. destruct Hin as [Hin | ->]; [contradiction|].
    match goal with
    | Hs : session w = Some ?k, Hu : get User.id ?k _ = Some ?u,
      Hid : (User.id ?u =? 1) = true |- _ =>
        apply Z.eqb_eq in Hid; exists u; eexists;
        split; [exact (logged_in_as_intro w k u Hs Hu)|];
        split; [exact Hid|]; split; [eassumption|]; cbn;
        repeat (split; [first [reflexivity | exact Hid]|]);
        left; eexists; repeat split; reflexivity
    end.
  - apply in_replace in Hin. destruct Hin as [-> | Hin]; [|contradiction].
    match goal with
    | Hs : session w = Some ?k, Hu : get User.id ?k _ = Some ?u,
      Hid : (User.id ?u =? 1) = true,
      Hp : get BlogPost.id ?pid _ = Some ?old |- _ =>
        apply Z.eqb_eq in Hid; exists u; eexists;
        destruct (get_some_pk BlogPost.id _ _ _ Hp) as [_ Hpid];
        split; [exact (logged_in_as_intro w k u Hs Hu)|];
        split; [exact Hid|]; split; [eassumption|]; cbn;
        repeat (split; [first [reflexivity | exact Hid]|]);
        right; exists old; rewrite Hpid; repeat split;
        first [reflexivity | exact Hp]
    end.
Qed.

(** A comment row that a request brings into the table comes from a
    validated comment form on an existing post, sent by a logged-in user,
    and carries that user's id and that post's id. *)
Theorem dispatch_comments_step (r : request) (w : World) (c : Comment.t) :
  In c (comments (db (fst (dispatch DataRequired URL generate_password_hash
                    check_password_hash
                    sqlite_integer python_int r w)))) ->
  ~ In c (comments (db w)) ->
  exists u post_id form p,
    r = req_show_post post_id (Some form)
    /\ validate_CommentForm DataRequired form = true
    /\ logged_in_as w u
    /\ get BlogPost.id post_id (blog_posts (db w)) = Some p
    /\ c = Comment.Build (next_id Comment.id (comments (db w)))
             (CommentForm.comment form) (User.id u) post_id.
Proof.
  destruct r; run_views; intros Hin Hnot; try contradiction;
    try (apply delete_In in Hin; now destruct Hin).
  all: apply in_snoc in Hin; destruct Hin as [Hin | ->]; [contradiction|].
  all: match goal with
       | Hs : session ?w0 = Some ?k, Hu : get User.id ?k _ = Some ?u,
         Hp : get BlogPost.id ?pid _ = Some ?p |- _ =>
           destruct (get_some_pk BlogPost.id _ _ _ Hp) as [_ Hpid];
           exists u, pid; eexists; exists p;
           split; [reflexivity|]; split; [eassumption|];
           split; [exact (logged_in_as_intro w0 k u Hs Hu)|];
           split; [exact Hp|]; now rewrite Hpid
       end.
Qed.

End StepFacts.

(** ** Invariants of the reachable worlds *)

Section InvariantFacts.

Variables DataRequired URL : string -> bool.
Variable generate_password_hash : string -> string.
Variable check_password_hash : string -> string -> bool.
Variables sqlite_integer python_int : string -> option Z.

Lemma users_kept_or_extended (r : request) (w : World) :
  users (db (fst (dispatch DataRequired URL generate_password_hash
                    check_password_hash
                    sqlite_integer python_int r w)))
  = users (db w)
  \/ exists u,
       users (db (fst (dispatch DataRequired URL generate_password_hash
                         check_password_hash
                         sqlite_integer python_int r w)))
       = users (db w) ++ [u]
       /\ (exists pw, User.password u = generate_password_hash pw)
       /\ forall v, In v (users (db w)) -> User.email v <> User.email u.
Proof.
  destruct r; run_views; try (left; reflexivity).
  right. eexists. split; [reflexivity|]. cbn.
  split; [eexists; reflexivity|].
  intros v Hin Heq.
  match goal with
  | H : scalar _ _ = None |- _ =>
      rewrite scalar_none_iff in H; specialize (H v Hin); cbn in H;
      rewrite Heq, String.eqb_refl in H; discriminate
  end.
Qed.

Lemma stored_user_stays (r : request) (w : World) (k : Z) :
  get User.id k (users (db w)) <> None ->
  get User.id k
    (users (db (fst (dispatch DataRequired URL generate_password_hash
                       check_password_hash
                       sqlite_integer python_int r w)))) <> None.
Proof.
  intros Hk. destruct (users_kept_or_extended r w) as [-> | (u & -> & _ & _)];
    [exact Hk | now apply get_snoc_found].
Qed.

Lemma post_kept_or_by_admin (r : request) (w : World) (p : BlogPost.t) :
  In p (blog_posts (db (fst (dispatch DataRequired URL generate_password_hash
                               check_password_hash
                               sqlite_integer python_int r w)))) ->
  In p (blog_posts (db w))
  \/ (BlogPost.author_id p = 1 /\ get User.id 1 (users (db w)) <> None).
Proof.
  destruct r; run_views; intros Hin; try (left; exact Hin);
    try (left; apply delete_In in Hin; now destruct Hin).
  - apply in_snoc in Hin. destruct Hin as [Hin | ->]; [now left | right].
    match goal with
    | Hu : get User.id _ _ = Some ?u, Hid : (User.id ?u =? 1) = true |- _ =>
        apply Z.eqb_eq in Hid;
        destruct (get_some_pk User.id _ _ _ Hu) as [_ Hk];
        cbn; split; [exact Hid | rewrite <- Hid, Hk, Hu; discriminate]
    end.
  - apply in_replace in Hin. destruct Hin as [-> | Hin]; [right | now left].
    match goal with
    | Hu : get User.id _ _ = Some ?u, Hid : (User.id ?u =? 1) = true |- _ =>
        apply Z.eqb_eq in Hid;
        destruct (get_some_pk User.id _ _ _ Hu) as [_ Hk];
        cbn; split; [exact Hid | rewrite <- Hid, Hk, Hu; discriminate]
    end.
Qed.

Lemma comment_kept_or_by_requester (r : request) (w : World) (c : Comment.t) :
  In c (comments (db (fst (dispatch DataRequired URL generate_password_hash
                             check_password_hash
                             sqlite_integer python_int r w)))) ->
  In c (comments (db w))
  \/ get User.id (Comment.comment_author_id c) (users (db w)) <> None.
Proof.
  destruct r; run_views; intros Hin; try (left; exact Hin);
    try (left; apply delete_In in Hin; now destruct Hin).
  all: apply in_snoc in Hin; destruct Hin as [Hin | ->]; [now left | right].
  all: match goal with
       | Hu : get User.id _ _ = Some ?u |- _ =>
           destruct (get_some_pk User.id _ _ _ Hu) as [_ Hk];
           cbn; rewrite Hk, Hu; discriminate
       end.
Qed.

(** Whatever requests were served, no two stored users share an email:
    [register] looks the email up before it inserts. *)
Theorem reachable_unique_emails (w : World) :
  reachable DataRequired URL generate_password_hash check_password_hash
      sqlite_integer python_int w ->
  unique_emails (db w).
Proof.
  unfold unique_emails. induction 1 as [|w r _ IH]; [constructor|].
  destruct (users_kept_or_extended r w) as [-> | (u & -> & _ & Hfresh)];
    [exact IH|].
  rewrite map_app. cbn.
  apply NoDup_app; [exact IH | repeat constructor; intros [] |].
  intros e He [<- | []]. apply in_map_iff in He.
  destruct He as (v & Hv & Hin). exact (Hfresh v Hin Hv).
Qed.


(** Whatever requests were served, the author of every stored post and of
    every stored comment is a stored user: authors are taken from the
    logged-in user, and no view deletes a user. *)
Theorem reachable_authors_exist (w : World) :
  reachable DataRequired URL generate_password_hash check_password_hash
      sqlite_integer python_int w ->
  authors_exist (db w).
Proof.
  induction 1 as [|w r _ [IHp IHc]]; [split; intros ? []|].
  split.
  - intros p Hin. apply stored_user_stays.
    destruct (post_kept_or_by_admin r w p Hin) as [Hold | [-> Hadmin]];
      [now apply IHp | exact Hadmin].
  - intros c Hin. apply stored_user_stays.
    destruct (comment_kept_or_by_requester r w c Hin) as [Hold | Hnew];
      [now apply IHc | exact Hnew].
Qed.

(** Whatever requests were served, every stored post names user 1 as its
    author: creating and editing are behind [admin_only], and both write
    the requester's id. *)
Theorem reachable_posts_by_admin (w : World) (p : BlogPost.t) :
  reachable DataRequired URL generate_password_hash check_password_hash
      sqlite_integer python_int w ->
  In p (blog_posts (db w)) -> BlogPost.author_id p = 1.
Proof.
  intros Hreach. revert p.
  induction Hreach as [|w r _ IH]; intros p Hin; [destruct Hin|].
  destruct (post_kept_or_by_admin r w p Hin) as [Hold | [Hnew _]];
    [now apply IH | exact Hnew].
Qed.

End InvariantFacts.

Lemma reachable_unique_emails_witness :
  unique_emails (db (sample_world (Some 4))).
Proof.
  exact (reachable_unique_emails nonempty http_prefixed sample_hash
           sample_check
               decimal_segment decimal_segment
               (sample_world (Some 4)) sample_world_reachable).
Defined.

Lemma reachable_authors_exist_witness :
  authors_exist (db (sample_world (Some 4))).
Proof.
  exact (reachable_authors_exist nonempty http_prefixed sample_hash
           sample_check
               decimal_segment decimal_segment
               (sample_world (Some 4)) sample_world_reachable).
Defined.

Lemma reachable_posts_by_admin_witness :
  BlogPost.author_id post2 = 1.
Proof.
  apply (reachable_posts_by_admin nonempty http_prefixed sample_hash
           sample_check
               decimal_segment decimal_segment
               (sample_world (Some 4)) post2 sample_world_reachable).
  cbn. tauto.
Defined.


(** ** Finding what was inserted *)

Section LookupFacts.

Context {row : Type} (pk : row -> Z).

Lemma scalar_snoc_new (p : row -> bool) (tbl : list row) (r : row) :
  (forall x, In x tbl -> p x = false) -> p r = true ->
  scalar p (tbl ++ [r]) = Some r.
Proof.
  unfold scalar. intros Hold Hr.
  induction tbl as [|x tbl IH]; cbn; [now rewrite Hr|].
  rewrite (Hold x (or_introl eq_refl)). apply IH.
  intros y Hy. apply Hold. now right.
Qed.

Lemma get_snoc_new (tbl : list row) (r : row) :
  pk r = next_id pk tbl -> get pk (pk r) (tbl ++ [r]) = Some r.
Proof.
  intros Hr. apply (scalar_snoc_new (fun x => pk x =? pk r)).
  - intros x Hx. apply Z.eqb_neq. pose proof (next_id_above pk tbl x Hx). lia.
  - apply Z.eqb_refl.
Qed.

Lemma get_of_distinct (tbl : list row) (r : row) :
  NoDup (map pk tbl) -> In r tbl -> get pk (pk r) tbl = Some r.
Proof.
  unfold get. induction tbl as [|x tbl IH]; cbn; intros Hnd Hin;
    [contradiction|].
  inversion Hnd as [|? ? Hnotin Hnd']; subst.
  destruct Hin as [-> | Hin]; [now rewrite Z.eqb_refl|].
  destruct (pk x =? pk r) eqn:E; [|now apply IH].
  apply Z.eqb_eq in E. exfalso. apply Hnotin. rewrite E. now apply in_map.
Qed.

Lemma existsb_none (p : row -> bool) (tbl : list row) :
  (forall x, In x tbl -> p x = false) -> existsb p tbl = false.
Proof.
  intros H. destruct (existsb p tbl) eqn:E; [|reflexivity].
  apply existsb_exists in E. destruct E as (x & Hx & Hp).
  rewrite (H x Hx) in Hp. discriminate.
Qed.

Lemma existsb_some (p : row -> bool) (tbl : list row) (x : row) :
  In x tbl -> p x = true -> existsb p tbl = true.
Proof. intros Hx Hp. apply existsb_exists. now exists x. Qed.

End LookupFacts.

(** ** Accounts: register, login, logout *)

Section AccountFacts.

Variables DataRequired URL : string -> bool.
Variable generate_password_hash : string -> string.
Variable check_password_hash : string -> string -> bool.
Variables sqlite_integer python_int : string -> option Z.

Lemma email_unused (w : World) (email : string) :
  (forall u, In u (users (db w)) -> User.email u <> email) ->
  forall u, In u (users (db w)) -> (User.email u =? email)%string = false.
Proof. intros H u Hu. apply String.eqb_neq. now apply H. Qed.

Lemma register_unused_email (w : World) (form : RegisterForm.t) :
  validate_RegisterForm DataRequired form = true ->
  (forall u, In u (users (db w)) -> User.email u <> RegisterForm.email form) ->
  register DataRequired generate_password_hash (Some form) w
  = (mkWorld
       (mkDb (users (db w)
              ++ [User.Build (next_id User.id (users (db w)))
                    (RegisterForm.email form)
                    (generate_password_hash (RegisterForm.password form))
                    (RegisterForm.name form)])
          (blog_posts (db w)) (comments (db w)))
       (Some (next_id User.id (users (db w)))) (flashes w),
     Ok (RedirectTo get_all_posts_ep)).
Proof.
  intros Hv Hfresh. pose proof (email_unused w _ Hfresh) as Hno.
  unfold register, validate_on_submit. rewrite Hv.
  unfold bind at 1. unfold gets.
  rewrite (proj2 (scalar_none_iff _ _) Hno).
  unfold bind, add_user. rewrite (existsb_none _ _ Hno). reflexivity.
Qed.

(** A validated registration with an email no stored user has appends the
    user with the next free id and the hashed password, touches neither
    posts nor comments, logs the new user in, and redirects to the post
    list; [current_user] then loads exactly the new row. *)
Theorem register_new_user (w : World) (form : RegisterForm.t) :
  validate_RegisterForm DataRequired form = true ->
  (forall u, In u (users (db w)) -> User.email u <> RegisterForm.email form) ->
  let new_user :=
    User.Build (next_id User.id (users (db w))) (RegisterForm.email form)
      (generate_password_hash (RegisterForm.password form))
      (RegisterForm.name form) in
  let w' :=
    mkWorld
      (mkDb (users (db w) ++ [new_user]) (blog_posts (db w)) (comments (db w)))
      (Some (User.id new_user)) (flashes w) in
  register DataRequired generate_password_hash (Some form) w
  = (w', Ok (RedirectTo get_all_posts_ep))
  /\ current_user w' = (w', Ok (LoggedIn new_user)).
Proof.
  intros Hv Hfresh new_user w'. split.
  - now apply register_unused_email.
  - apply current_user_logged_in. split; [reflexivity|].
    apply (get_snoc_new User.id). reflexivity.
Qed.

(** Registering, logging out, and logging in again with the same email
    and password ends logged in as the registered user, provided the
    hash of a password checks against that password. *)
Theorem register_logout_login (w : World) (form : RegisterForm.t) :
  validate_RegisterForm DataRequired form = true ->
  (forall u, In u (users (db w)) -> User.email u <> RegisterForm.email form) ->
  check_password_hash (generate_password_hash (RegisterForm.password form))
    (RegisterForm.password form) = true ->
  let w1 := fst (register DataRequired generate_password_hash (Some form) w) in
  let w2 := fst (logout w1) in
  session w1 = Some (next_id User.id (users (db w)))
  /\ session w2 = None
  /\ login DataRequired check_password_hash
       (Some (LoginForm.Build (RegisterForm.email form)
                (RegisterForm.password form))) w2
     = (set_session (Some (next_id User.id (users (db w)))) w2,
        Ok (RedirectTo get_all_posts_ep)).
Proof.
  intros Hv Hfresh Hcheck w1 w2. subst w2 w1.
  rewrite (register_unused_email w form Hv Hfresh). cbn.
  rewrite logout_loaded.
  2:{ unfold session_ok. cbn.
      pose proof (get_snoc_new User.id (users (db w))
                    (User.Build (next_id User.id (users (db w)))
                       (RegisterForm.email form)
                       (generate_password_hash (RegisterForm.password form))
                       (RegisterForm.name form)) eq_refl) as Hnew.
      cbn in Hnew. rewrite Hnew. discriminate. }
  cbn. split; [reflexivity|]. split; [reflexivity|].
  assert (Hlv : validate_LoginForm DataRequired
                  (LoginForm.Build (RegisterForm.email form)
                     (RegisterForm.password form)) = true).
  { unfold validate_RegisterForm in Hv. unfold validate_LoginForm. cbn.
    apply andb_prop in Hv. destruct Hv as [Hv _]. exact Hv. }
  unfold login, validate_on_submit. rewrite Hlv.
  unfold bind at 1. unfold gets. cbn.
  assert (Hq : scalar
                 (fun u => (User.email u =? RegisterForm.email form)%string)
                 (users (db w)
                  ++ [User.Build (next_id User.id (users (db w)))
                        (RegisterForm.email form)
                        (generate_password_hash (RegisterForm.password form))
                        (RegisterForm.name form)])
               = Some (User.Build (next_id User.id (users (db w)))
                         (RegisterForm.email form)
                         (generate_password_hash (RegisterForm.password form))
                         (RegisterForm.name form))).
  { apply scalar_snoc_new; [exact (email_unused w _ Hfresh)|].
    cbn. apply String.eqb_refl. }
  rewrite Hq. cbn. rewrite Hcheck. reflexivity.
Qed.

(** A validated login with an unknown email, or with a password that does
    not check against the stored hash, leaves database and session as
    they were, flashes the matching message and redirects to the login
    page. *)
Theorem login_rejected (w : World) (form : LoginForm.t) :
  validate_LoginForm DataRequired form = true ->
  (scalar (fun u => (User.email u =? LoginForm.email form)%string)
     (users (db w)) = None ->
   login DataRequired check_password_hash (Some form) w
   = (mkWorld (db w) (session w)
        (flashes w ++ ["That email does not exist. Please try again."]),
      Ok (RedirectTo login_ep)))
  /\ (forall u,
        scalar (fun u => (User.email u =? LoginForm.email form)%string)
          (users (db w)) = Some u ->
        check_password_hash (User.password u) (LoginForm.password form)
        = false ->
        login DataRequired check_password_hash (Some form) w
        = (mkWorld (db w) (session w)
             (flashes w ++ ["Password incorrect. Please try again."]),
           Ok (RedirectTo login_ep))).
Proof.
  intros Hv. split.
  - intros Hq. unfold login, validate_on_submit. rewrite Hv.
    unfold bind at 1. unfold gets. rewrite Hq. reflexivity.
  - intros u Hq Hcheck. unfold login, validate_on_submit. rewrite Hv.
    unfold bind at 1. unfold gets. rewrite Hq, Hcheck. reflexivity.
Qed.

(** A validated login whose password checks against the hash stored for
    the first user with that email binds the session to that user,
    changes nothing else, and redirects to the post list; with distinct
    user ids [current_user] then loads that user. *)
Theorem login_accepted (w : World) (form : LoginForm.t) (u : User.t) :
  validate_LoginForm DataRequired form = true ->
  scalar (fun u => (User.email u =? LoginForm.email form)%string)
    (users (db w)) = Some u ->
  check_password_hash (User.password u) (LoginForm.password form) = true ->
  login DataRequired check_password_hash (Some form) w
  = (set_session (Some (User.id u)) w, Ok (RedirectTo get_all_posts_ep))
  /\ (NoDup (map User.id (users (db w))) ->
      current_user (set_session (Some (User.id u)) w)
      = (set_session (Some (User.id u)) w, Ok (LoggedIn u))).
Proof.
  intros Hv Hq Hcheck. split.
  - unfold login, validate_on_submit. rewrite Hv.
    unfold bind at 1. unfold gets. rewrite Hq, Hcheck. reflexivity.
  - intros Hnd. apply current_user_logged_in. split; [reflexivity|]. cbn.
    apply get_of_distinct; [exact Hnd|].
    unfold scalar in Hq. apply find_some in Hq. tauto.
Qed.

(** Where the session names nobody or a stored user, logout clears
    the session and leaves database and messages alone; afterwards the
    requester is anonymous and the routes behind [admin_only] raise
    [AttributeError], also for the former administrator. Where the session
    names a user that is not stored, [logout_user] stops at the 404 of
    [load_user] and the session stays as it was. *)
Theorem logout_clears_session (w : World) :
  (session_ok w ->
   logout w = (set_session None w, Ok (RedirectTo get_all_posts_ep))
   /\ session (fst (logout w)) = None
   /\ db (fst (logout w)) = db w /\ flashes (fst (logout w)) = flashes w)
  /\ (~ session_ok w -> logout w = (w, HTTPException 404))
  /\ current_user (set_session None w) = (set_session None w, Ok AnonymousUser)
  /\ (forall today submitted,
        add_new_post DataRequired URL today submitted (set_session None w)
        = (set_session None w, Raise AttributeError))
  /\ (forall post_id submitted,
        edit_post DataRequired URL post_id submitted (set_session None w)
        = (set_session None w, Raise AttributeError)).
Proof.
  split; [|split; [|split; [now apply current_user_anonymous|]]].
  - intros Hok. rewrite (logout_loaded w Hok). now cbn.
  - unfold session_ok. rewrite logout_cases.
    destruct (session w) as [user_id|]; [|intros H; now contradiction H].
    destruct (get User.id user_id (users (db w))); [|reflexivity].
    intros H. contradiction H. discriminate.
  - split; intros; now apply admin_only_anonymous.
Qed.

(** The first user ever registered gets id 1 and is let through by
    [admin_only] from then on. *)
Theorem first_registrant_is_administrator (w : World)
  (form : RegisterForm.t) :
  users (db w) = [] ->
  validate_RegisterForm DataRequired form = true ->
  exists u,
    logged_in_as
      (fst (register DataRequired generate_password_hash (Some form) w)) u
    /\ User.id u = 1
    /\ User.email u = RegisterForm.email form
    /\ forall f,
         admin_only f
           (fst (register DataRequired generate_password_hash (Some form) w))
         = f (fst (register DataRequired generate_password_hash (Some form) w)).
Proof.
  intros Hempty Hv.
  assert (Hfresh : forall u, In u (users (db w)) ->
                             User.email u <> RegisterForm.email form)
    by (rewrite Hempty; intros ? []).
  rewrite (register_unused_email w form Hv Hfresh). rewrite Hempty. cbn.
  set (u := User.Build (next_id User.id []) (RegisterForm.email form)
              (generate_password_hash (RegisterForm.password form))
              (RegisterForm.name form)).
  set (w' := mkWorld _ _ _).
  assert (Hu : logged_in_as w' u) by (split; reflexivity).
  exists u. split; [exact Hu|]. split; [reflexivity|]. split; [reflexivity|].
  intros f. now rewrite (admin_only_logged_in w' u f Hu).
Qed.

End AccountFacts.

(** ** Posts and comments *)

Section ContentFacts.

Variables DataRequired URL : string -> bool.
Variable generate_password_hash : string -> string.
Variable check_password_hash : string -> string -> bool.
Variables sqlite_integer python_int : string -> option Z.

(** A validated comment by a logged-in user on an existing post appends
    one comment with the next free id, the submitted text, the
    requester's id and the post's id, changes nothing else, and renders
    the post page as logged in (no redirect after the insert). *)
Theorem show_post_adds_comment (w : World) (u : User.t) (post_id : Z)
  (p : BlogPost.t) (form : CommentForm.t) :
  logged_in_as w u ->
  get BlogPost.id post_id (blog_posts (db w)) = Some p ->
  validate_CommentForm DataRequired form = true ->
  show_post DataRequired post_id (Some form) w
  = (set_db
       (mkDb (users (db w)) (blog_posts (db w))
          (comments (db w)
           ++ [Comment.Build (next_id Comment.id (comments (db w)))
                 (CommentForm.comment form) (User.id u) post_id])) w,
     Ok (RenderTemplate "post.html" true)).
Proof.
  intros Hu Hp Hv. destruct (get_some_pk BlogPost.id _ _ _ Hp) as [_ Hid].
  unfold show_post, validate_on_submit. rewrite Hv.
  unfold bind at 1. unfold get_or_404. rewrite Hp.
  unfold bind at 1. rewrite (current_user_logged_in w u Hu). cbn.
  rewrite render_template_cases. cbn.
  destruct Hu as [-> ->]. now rewrite Hid.
Qed.

(** With no post under the given id, the post page and the
    delete-post route fail for every caller, and so does the edit-post
    route for the administrator, and the world is left as it was. The
    failure is 404 where the id fits SQLite's 64-bit integers, and the
    [OverflowError] of binding the parameter where it does not. *)
Theorem missing_post_not_found (w : World) (post_id : Z) :
  get BlogPost.id post_id (blog_posts (db w)) = None ->
  let outcome : result response :=
    if fits_sqlite post_id then HTTPException 404 else Raise OverflowError in
  (forall submitted,
     show_post DataRequired post_id submitted w = (w, outcome))
  /\ delete_post post_id w = (w, outcome)
  /\ (forall u submitted,
        logged_in_as w u -> User.id u = 1 ->
        edit_post DataRequired URL post_id submitted w = (w, outcome)).
Proof.
  intros Hp outcome. subst outcome. split; [|split].
  - intros submitted. unfold show_post, bind, get_or_404. rewrite Hp.
    now destruct (fits_sqlite post_id).
  - unfold delete_post, bind, get_or_404. rewrite Hp.
    now destruct (fits_sqlite post_id).
  - intros u submitted Hu Hid. unfold edit_post.
    rewrite (admin_only_logged_in w u _ Hu), Hid. cbn.
    unfold edit_post_view, bind, get_or_404. rewrite Hp.
    now destruct (fits_sqlite post_id).
Qed.

(** Where the database finds no comment under the first path segment,
    because it reads it as an integer no comment has as its id or because
    it reads no integer in it, a requester whom [only_commenter] lets
    through gets 404 from the delete-comment route, and nothing is
    deleted. *)
Theorem missing_comment_not_found (w : World) (u : User.t) (c : Comment.t)
  (post_id comment_id : string) :
  match sqlite_integer comment_id with
  | Some k => get Comment.id k (comments (db w)) = None
  | None => True
  end ->
  logged_in_as w u -> In c (comments (db w)) ->
  Comment.comment_author_id c = User.id u ->
  delete_comment sqlite_integer python_int post_id comment_id w
  = (w, HTTPException 404).
Proof.
  intros Hget Hu Hin Hc. unfold delete_comment.
  rewrite (only_commenter_with_a_comment w u c _ Hu Hin Hc).
  unfold delete_comment_view, bind, get_or_404_text.
  destruct (sqlite_integer comment_id) as [k|]; [|reflexivity].
  now rewrite Hget.
Qed.

(** A post that has a comment cannot be deleted, whoever asks: the commit
    raises [IntegrityError], and posts, comments, session and messages are
    as they were. *)
Theorem delete_post_with_comment_fails (w : World) (post_id : Z)
  (p : BlogPost.t) (c : Comment.t) :
  get BlogPost.id post_id (blog_posts (db w)) = Some p ->
  In c (comments (db w)) -> Comment.parent_post_id c = post_id ->
  delete_post post_id w = (w, Raise IntegrityError).
Proof.
  intros Hget Hin Hparent. apply (delete_post_commented w post_id p Hget).
  unfold has_comments. apply existsb_exists. exists c.
  split; [exact Hin | now apply Z.eqb_eq].
Qed.

(** A validated create-post request by the administrator with a title no
    stored post has appends one post with the next free id, the submitted
    fields, author 1 and today's date, and redirects to the post list,
    which then shows the old posts followed by the new one. *)
Theorem add_new_post_creates (w : World) (u : User.t) (today : string)
  (form : CreatePostForm.t) :
  logged_in_as w u -> User.id u = 1 ->
  validate_CreatePostForm DataRequired URL form = true ->
  (forall q, In q (blog_posts (db w)) ->
     BlogPost.title q <> CreatePostForm.title form) ->
  let new_post :=
    BlogPost.Build (next_id BlogPost.id (blog_posts (db w)))
      (CreatePostForm.title form) (CreatePostForm.subtitle form) today
      (CreatePostForm.body form) 1 (CreatePostForm.img_url form) in
  let w' :=
    set_db (mkDb (users (db w)) (blog_posts (db w) ++ [new_post])
              (comments (db w))) w in
  add_new_post DataRequired URL today (Some form) w
  = (w', Ok (RedirectTo get_all_posts_ep))
  /\ get_all_posts w'
     = (w', Ok (blog_posts (db w) ++ [new_post],
                RenderTemplate "index.html" true)).
Proof.
  intros Hu Hid Hv Hfresh new_post w'.
  assert (Hu' : logged_in_as w' u) by exact Hu.
  split.
  - unfold add_new_post. rewrite (admin_only_logged_in w u _ Hu), Hid. cbn.
    unfold add_new_post_view, validate_on_submit. rewrite Hv.
    unfold bind at 1. rewrite (current_user_logged_in w u Hu). cbn.
    unfold bind, add_post.
    rewrite existsb_none;
      [|intros q Hq; apply String.eqb_neq; now apply Hfresh].
    cbn. subst w' new_post. now rewrite Hid.
  - unfold get_all_posts, bind, gets. rewrite render_template_cases.
    destruct Hu' as [-> ->]. reflexivity.
Qed.

(** The title column is unique and the views do not catch the violation:
    a validated create-post request by the administrator whose title a
    stored post has raises [IntegrityError], and so does an edit that
    gives a post the title of another post; nothing is written. *)
Theorem duplicate_title_raises (w : World) (u : User.t)
  (form : CreatePostForm.t) (q : BlogPost.t) :
  logged_in_as w u -> User.id u = 1 ->
  validate_CreatePostForm DataRequired URL form = true ->
  In q (blog_posts (db w)) ->
  BlogPost.title q = CreatePostForm.title form ->
  (forall today,
     add_new_post DataRequired URL today (Some form) w
     = (w, Raise IntegrityError))
  /\ (forall post_id p,
        get BlogPost.id post_id (blog_posts (db w)) = Some p ->
        BlogPost.id q <> post_id ->
        edit_post DataRequired URL post_id (Some form) w
        = (w, Raise IntegrityError)).
Proof.
  intros Hu Hid Hv Hq Htitle. split.
  - intros today. unfold add_new_post.
    rewrite (admin_only_logged_in w u _ Hu), Hid. cbn.
    unfold add_new_post_view, validate_on_submit. rewrite Hv.
    unfold bind at 1. rewrite (current_user_logged_in w u Hu). cbn.
    unfold bind, add_post.
    rewrite (existsb_some _ _ q Hq); [reflexivity|].
    cbn. rewrite Htitle. apply String.eqb_refl.
  - intros post_id p Hp Hne. destruct (get_some_pk BlogPost.id _ _ _ Hp)
      as [_ Hpid].
    unfold edit_post. rewrite (admin_only_logged_in w u _ Hu), Hid. cbn.
    unfold edit_post_view, validate_on_submit. rewrite Hv.
    unfold bind at 1. unfold get_or_404. rewrite Hp.
    unfold bind at 1. rewrite (current_user_logged_in w u Hu). cbn.
    unfold bind, update_post.
    rewrite (existsb_some _ _ q Hq); [reflexivity|].
    cbn. rewrite Htitle, String.eqb_refl, Hpid.
    now rewrite (proj2 (Z.eqb_neq _ _) Hne).
Qed.

(** A logged-in user whose id is not 1 is refused with 403 by the
    edit-post route, whatever the post id and whatever was submitted, and
    the world is left as it was. *)
Theorem edit_post_non_admin_forbidden (w : World) (u : User.t) (post_id : Z)
  (submitted : option CreatePostForm.t) :
  logged_in_as w u -> User.id u <> 1 ->
  edit_post DataRequired URL post_id submitted w = (w, HTTPException 403).
Proof.
  intros Hu Hid. unfold edit_post. rewrite (admin_only_logged_in w u _ Hu).
  now rewrite (proj2 (Z.eqb_neq _ _) Hid).
Qed.

(** A request that carries no form data, or data that fails validation,
    changes nothing: neither the tables, nor the session, nor the flashed
    messages, on any of the five routes with a form. *)
Theorem unvalidated_changes_nothing (w : World) :
  (forall submitted,
     validate_on_submit (validate_RegisterForm DataRequired) submitted = None ->
     fst (register DataRequired generate_password_hash submitted w) = w)
  /\ (forall submitted,
        validate_on_submit (validate_LoginForm DataRequired) submitted = None ->
        fst (login DataRequired check_password_hash submitted w) = w)
  /\ (forall post_id submitted,
        validate_on_submit (validate_CommentForm DataRequired) submitted
        = None ->
        fst (show_post DataRequired post_id submitted w) = w)
  /\ (forall today submitted,
        validate_on_submit (validate_CreatePostForm DataRequired URL) submitted
        = None ->
        fst (add_new_post DataRequired URL today submitted w) = w)
  /\ (forall post_id submitted,
        validate_on_submit (validate_CreatePostForm DataRequired URL) submitted
        = None ->
        fst (edit_post DataRequired URL post_id submitted w) = w).
Proof.
  repeat split; intros.
  - unfold register. rewrite H. now rewrite render_template_cases.
  - unfold login. rewrite H. now rewrite render_template_cases.
  - unfold show_post. rewrite H. unfold bind, get_or_404.
    destruct (get _ _ _);
      [now rewrite render_template_cases | now destruct (fits_sqlite post_id)].
  - unfold add_new_post, add_new_post_view. rewrite H.
    unfold admin_only, bind. rewrite current_user_cases.
    destruct (session w) as [k|]; [|reflexivity].
    destruct (get User.id k (users (db w))) as [u|]; [|reflexivity]. cbn.
    destruct (negb (User.id u =? 1)); [reflexivity|].
    now rewrite render_template_cases.
  - unfold edit_post, edit_post_view. rewrite H.
    unfold admin_only, bind. rewrite current_user_cases.
    destruct (session w) as [k|]; [|reflexivity].
    destruct (get User.id k (users (db w))) as [u|]; [|reflexivity]. cbn.
    destruct (negb (User.id u =? 1)); [reflexivity|].
    unfold get_or_404.
    destruct (get _ _ _);
      [now rewrite render_template_cases | now destruct (fits_sqlite post_id)].
Qed.

End ContentFacts.

(** [only_commenter] either runs the view or fails with [AttributeError]
    or 404: its two [abort(403)] are never reached, so the delete-comment
    route never answers 403. *)
Theorem only_commenter_never_forbids
  (sqlite_integer python_int : string -> option Z) (w : World) :
  (forall f,
     only_commenter f w = f w
     \/ only_commenter f w = (w, Raise AttributeError)
     \/ only_commenter f w = (w, HTTPException 404))
  /\ (forall post_id comment_id,
        snd (delete_comment sqlite_integer python_int post_id comment_id w)
        <> HTTPException 403).
Proof.
  assert (Hcases : forall f,
            only_commenter f w = f w
            \/ only_commenter f w = (w, Raise AttributeError)
            \/ only_commenter f w = (w, HTTPException 404)).
  { intros f. unfold only_commenter, bind. rewrite current_user_cases.
    destruct (session w) as [k|] eqn:Hs; [|right; left; reflexivity].
    destruct (get User.id k (users (db w))) as [u|] eqn:Hu;
      [|right; right; reflexivity].
    cbn. rewrite current_user_cases, Hs, Hu. cbn.
    destruct (scalar _ (comments (db w))) as [c|] eqn:Hq;
      [|right; left; reflexivity].
    cbn. unfold scalar in Hq. apply find_some in Hq. destruct Hq as [_ Hq].
    rewrite Z.eqb_sym, Hq. left. reflexivity. }
  split; [exact Hcases|].
  intros post_id comment_id. unfold delete_comment.
  destruct (Hcases (delete_comment_view sqlite_integer python_int post_id
                      comment_id))
    as [-> | [-> | ->]]; try discriminate.
  unfold delete_comment_view, bind, get_or_404_text, url_for_show_post.
  destruct (sqlite_integer comment_id) as [k|]; [|discriminate].
  destruct (get _ _ _); [|discriminate]. cbn.
  destruct (python_int post_id); discriminate.
Qed.

(** ** Reachable worlds: pages and lookups *)

Section ReachableFacts.

Variables DataRequired URL : string -> bool.
Variable generate_password_hash : string -> string.
Variable check_password_hash : string -> string -> bool.
Variables sqlite_integer python_int : string -> option Z.

(** Whatever requests were served, the session's user can be loaded, so
    the post list, the about page and the contact page render, leave the
    world as it is, and the list is given the whole posts table in
    insertion order. *)
Theorem reachable_pages_render (w : World) :
  reachable DataRequired URL generate_password_hash check_password_hash
      sqlite_integer python_int w ->
  exists i,
    current_user w = (w, Ok i)
    /\ get_all_posts w
       = (w, Ok (blog_posts (db w),
                 RenderTemplate "index.html" (is_authenticated i)))
    /\ about w = (w, Ok (RenderTemplate "about.html" (is_authenticated i)))
    /\ contact w = (w, Ok (RenderTemplate "contact.html" (is_authenticated i))).
Proof.
  intros Hreach. destruct (reachable_well_formed _ _ _ _ _ _ w Hreach) as [_ Hok].
  destruct (current_user_loads w Hok) as [i Hi]. exists i.
  split; [exact Hi|].
  unfold get_all_posts, about, contact, render_template, bind, gets.
  rewrite Hi. repeat split; reflexivity.
Qed.

(** Whatever requests were served, every stored row is the one its own
    primary key finds, in each of the three tables. *)
Theorem reachable_rows_found_by_key (w : World) :
  reachable DataRequired URL generate_password_hash check_password_hash
      sqlite_integer python_int w ->
  (forall u, In u (users (db w)) ->
     get User.id (User.id u) (users (db w)) = Some u)
  /\ (forall p, In p (blog_posts (db w)) ->
        get BlogPost.id (BlogPost.id p) (blog_posts (db w)) = Some p)
  /\ (forall c, In c (comments (db w)) ->
        get Comment.id (Comment.id c) (comments (db w)) = Some c).
Proof.
  intros Hreach.
  destruct (reachable_well_formed _ _ _ _ _ _ w Hreach) as [(Hu & Hp & Hc) _].
  repeat split; intros; now apply get_of_distinct.
Qed.

End ReachableFacts.

(** ** The added theorems at the sample deployment *)

Lemma sample_world_carol_reachable :
  reachable nonempty http_prefixed sample_hash sample_check
      decimal_segment decimal_segment
    (sample_world (Some 3)).
Proof.
  change (sample_world (Some 3))
    with (fst (dispatch nonempty http_prefixed sample_hash sample_check
        decimal_segment decimal_segment
                 (req_login (Some (LoginForm.Build "carol@x.com" "carol")))
                 (sample_world (Some 4)))).
  apply reachable_step. exact sample_world_reachable.
Qed.

Lemma erin_is_new (u : User.t) :
  In u (users (db (sample_world None))) ->
  User.email u <> RegisterForm.email erin_form.
Proof.
  cbn. intros [<- | [<- | [<- | [<- | []]]]]; discriminate.
Qed.

Lemma register_new_user_witness :
  snd (register nonempty sample_hash (Some erin_form) (sample_world None))
  = Ok (RedirectTo get_all_posts_ep)
  /\ session
       (fst (register nonempty sample_hash (Some erin_form) (sample_world None)))
     = Some 5
  /\ get User.id 5
       (users (db (fst (register nonempty sample_hash (Some erin_form)
                          (sample_world None)))))
     = Some (User.Build 5 "erin@x.com" "h:erin" "Erin").
Proof.
  destruct (register_new_user nonempty sample_hash (sample_world None)
              erin_form eq_refl erin_is_new) as [Hrun _].
  rewrite Hrun. repeat split; reflexivity.
Defined.

Lemma register_logout_login_witness :
  login nonempty sample_check
    (Some (LoginForm.Build "erin@x.com" "erin"))
    (fst (logout (fst (register nonempty sample_hash (Some erin_form)
                         (sample_world None)))))
  = (set_session (Some 5)
       (fst (logout (fst (register nonempty sample_hash (Some erin_form)
                            (sample_world None))))),
     Ok (RedirectTo get_all_posts_ep)).
Proof.
  destruct (register_logout_login nonempty sample_hash sample_check
              (sample_world None) erin_form eq_refl erin_is_new eq_refl)
    as (_ & _ & Hlogin).
  exact Hlogin.
Defined.

Lemma login_rejected_witness :
  login nonempty sample_check (Some (LoginForm.Build "zed@x.com" "zed"))
    (sample_world None)
  = (mkWorld sample_db None ["That email does not exist. Please try again."],
     Ok (RedirectTo login_ep))
  /\ login nonempty sample_check (Some (LoginForm.Build "bob@x.com" "alice"))
       (sample_world None)
     = (mkWorld sample_db None ["Password incorrect. Please try again."],
        Ok (RedirectTo login_ep)).
Proof.
  split.
  - destruct (login_rejected nonempty sample_check (sample_world None)
                (LoginForm.Build "zed@x.com" "zed") eq_refl) as [Hnone _].
    exact (Hnone eq_refl).
  - destruct (login_rejected nonempty sample_check (sample_world None)
                (LoginForm.Build "bob@x.com" "alice") eq_refl) as [_ Hbad].
    exact (Hbad bob eq_refl eq_refl).
Defined.

Lemma logout_clears_session_witness :
  logout (sample_world (Some 1))
  = (sample_world None, Ok (RedirectTo get_all_posts_ep))
  /\ logout (sample_world (Some 9))
     = (sample_world (Some 9), HTTPException 404).
Proof.
  destruct (logout_clears_session nonempty http_prefixed
              (sample_world (Some 1)))
    as (Hclears & _ & _).
  destruct (logout_clears_session nonempty http_prefixed
              (sample_world (Some 9)))
    as (_ & Hstops & _).
  split.
  - assert (Hok : session_ok (sample_world (Some 1))) by (cbn; discriminate).
    destruct (Hclears Hok) as [Hrun _]. exact Hrun.
  - apply Hstops. intros Hok. now apply Hok.
Defined.

Lemma login_accepted_witness :
  login nonempty sample_check (Some (LoginForm.Build "bob@x.com" "bob"))
    (sample_world None)
  = (sample_world (Some 2), Ok (RedirectTo get_all_posts_ep))
  /\ current_user (sample_world (Some 2))
     = (sample_world (Some 2), Ok (LoggedIn bob)).
Proof.
  destruct (login_accepted nonempty sample_check (sample_world None)
              (LoginForm.Build "bob@x.com" "bob") bob eq_refl eq_refl eq_refl)
    as [Hrun Hcu].
  split; [exact Hrun|]. apply Hcu. cbn.
  repeat constructor; cbn; intuition discriminate.
Defined.

Lemma first_registrant_is_administrator_witness :
  exists u,
    logged_in_as
      (fst (register nonempty sample_hash (Some erin_form) fresh_world)) u
    /\ User.id u = 1
    /\ User.email u = "erin@x.com"
    /\ forall f,
         admin_only f
           (fst (register nonempty sample_hash (Some erin_form) fresh_world))
         = f (fst (register nonempty sample_hash (Some erin_form) fresh_world)).
Proof.
  exact (first_registrant_is_administrator nonempty sample_hash fresh_world
           erin_form eq_refl eq_refl).
Defined.

Lemma show_post_adds_comment_witness :
  show_post nonempty 2 (Some (CommentForm.Build "hi")) (sample_world (Some 4))
  = (mkWorld
       (mkDb [alice; bob; carol; dave] [post1; post2]
          [comment1; comment2; Comment.Build 3 "hi" 4 2])
       (Some 4) [],
     Ok (RenderTemplate "post.html" true)).
Proof.
  exact (show_post_adds_comment nonempty (sample_world (Some 4)) dave 2 post2
           (CommentForm.Build "hi") (conj eq_refl eq_refl) eq_refl eq_refl).
Defined.

Lemma missing_post_not_found_witness :
  show_post nonempty 7 None (sample_world None)
  = (sample_world None, HTTPException 404)
  /\ delete_post 7 (sample_world None) = (sample_world None, HTTPException 404)
  /\ show_post nonempty (2 ^ 63) None (sample_world None)
     = (sample_world None, Raise OverflowError).
Proof.
  destruct (missing_post_not_found nonempty http_prefixed (sample_world None)
              7 eq_refl) as (Hshow & Hdelete & _).
  destruct (missing_post_not_found nonempty http_prefixed (sample_world None)
              (2 ^ 63) eq_refl) as (Hlarge & _).
  split; [apply Hshow | split; [exact Hdelete | apply Hlarge]].
Defined.

Lemma delete_post_with_comment_fails_witness :
  delete_post 1 (sample_world (Some 1))
  = (sample_world (Some 1), Raise IntegrityError).
Proof.
  apply (delete_post_with_comment_fails (sample_world (Some 1)) 1 post1
           comment2); [reflexivity | cbn; tauto | reflexivity].
Defined.

Lemma missing_comment_not_found_witness :
  delete_comment decimal_segment decimal_segment "1" "9" (sample_world (Some 3))
  = (sample_world (Some 3), HTTPException 404)
  /\ delete_comment decimal_segment decimal_segment "1" "abc"
       (sample_world (Some 3))
     = (sample_world (Some 3), HTTPException 404).
Proof.
  split.
  - apply (missing_comment_not_found decimal_segment decimal_segment
             (sample_world (Some 3)) carol comment2 "1" "9");
      [reflexivity | split; reflexivity | cbn; tauto | reflexivity].
  - apply (missing_comment_not_found decimal_segment decimal_segment
             (sample_world (Some 3)) carol comment2 "1" "abc");
      [exact I | split; reflexivity | cbn; tauto | reflexivity].
Defined.

Lemma add_new_post_creates_witness :
  add_new_post nonempty http_prefixed "March 03, 2024" (Some sample_edit)
    (sample_world (Some 1))
  = (mkWorld
       (mkDb [alice; bob; carol; dave]
          [post1; post2;
           BlogPost.Build 3 "Cacti" "Plural" "March 03, 2024" "Spikier." 1
             "http://x.com/cacti.png"]
          [comment1; comment2])
       (Some 1) [],
     Ok (RedirectTo get_all_posts_ep)).
Proof.
  destruct (add_new_post_creates nonempty http_prefixed (sample_world (Some 1))
              alice "March 03, 2024" sample_edit (conj eq_refl eq_refl)
              eq_refl eq_refl) as [Hrun _].
  - cbn. intros q [<- | [<- | []]]; discriminate.
  - exact Hrun.
Defined.

Lemma duplicate_title_raises_witness :
  add_new_post nonempty http_prefixed "March 03, 2024"
    (Some (CreatePostForm.Build "Beans" "Again" "http://x.com/b.png" "More."))
    (sample_world (Some 1))
  = (sample_world (Some 1), Raise IntegrityError)
  /\ edit_post nonempty http_prefixed 1
       (Some (CreatePostForm.Build "Beans" "Again" "http://x.com/b.png" "More."))
       (sample_world (Some 1))
     = (sample_world (Some 1), Raise IntegrityError).
Proof.
  destruct (duplicate_title_raises nonempty http_prefixed
              (sample_world (Some 1)) alice
              (CreatePostForm.Build "Beans" "Again" "http://x.com/b.png" "More.")
              post2 (conj eq_refl eq_refl) eq_refl eq_refl)
    as [Hadd Hedit]; [cbn; tauto | reflexivity |].
  split; [apply Hadd|].
  apply (Hedit 1 post1); [reflexivity | cbn; lia].
Defined.

Lemma edit_post_non_admin_forbidden_witness :
  edit_post nonempty http_prefixed 1 (Some sample_edit) (sample_world (Some 2))
  = (sample_world (Some 2), HTTPException 403).
Proof.
  apply (edit_post_non_admin_forbidden nonempty http_prefixed
           (sample_world (Some 2)) bob 1 (Some sample_edit));
    [split; reflexivity | cbn; lia].
Defined.

Lemma unvalidated_changes_nothing_witness :
  fst (register nonempty sample_hash
         (Some (RegisterForm.Build "erin@x.com" "erin" EmptyString))
         (sample_world None))
  = sample_world None
  /\ fst (add_new_post nonempty http_prefixed "March 03, 2024"
            (Some (CreatePostForm.Build "Cacti" "Plural" "ftp://x" "Spikier."))
            (sample_world (Some 1)))
     = sample_world (Some 1).
Proof.
  destruct (unvalidated_changes_nothing nonempty http_prefixed sample_hash
              sample_check (sample_world None)) as (Hreg & _).
  destruct (unvalidated_changes_nothing nonempty http_prefixed sample_hash
              sample_check (sample_world (Some 1))) as (_ & _ & _ & Hadd & _).
  split; [apply Hreg | apply Hadd]; reflexivity.
Defined.

Lemma dispatch_posts_step_witness :
  exists u form,
    logged_in_as (sample_world (Some 1)) u /\ User.id u = 1
    /\ validate_CreatePostForm nonempty http_prefixed form = true
    /\ CreatePostForm.title form = "Cacti".
Proof.
  destruct (dispatch_posts_step nonempty http_prefixed sample_hash sample_check
      decimal_segment decimal_segment
              (req_edit_post 1 (Some sample_edit)) (sample_world (Some 1))
              (BlogPost.Build 1 "Cacti" "Plural" "January 01, 2024" "Spikier."
                 1 "http://x.com/cacti.png"))
    as (u & form & Hu & Hid & Hv & _ & Htitle & _).
  - vm_compute. tauto.
  - cbn. intros [H | [H | []]]; discriminate.
  - exists u, form. cbn in Htitle. now rewrite <- Htitle.
Defined.

Lemma dispatch_comments_step_witness :
  exists u, logged_in_as (sample_world (Some 4)) u /\ User.id u = 4.
Proof.
  destruct (dispatch_comments_step nonempty http_prefixed sample_hash
              sample_check
                  decimal_segment decimal_segment
                  (req_show_post 2 (Some (CommentForm.Build "hi")))
              (sample_world (Some 4)) (Comment.Build 3 "hi" 4 2))
    as (u & post_id & form & p & _ & _ & Hu & _ & Hc).
  - vm_compute. tauto.
  - cbn. intros [H | [H | []]]; discriminate.
  - exists u. split; [exact Hu|]. now injection Hc.
Defined.

Lemma delete_comment_by_author_exactly_witness :
  exists before after,
    comments (db (sample_world (Some 3))) = before ++ comment2 :: after
    /\ delete_comment decimal_segment decimal_segment "abc" "2"
         (sample_world (Some 3))
       = (set_db (mkDb (users (db (sample_world (Some 3))))
                    (blog_posts (db (sample_world (Some 3))))
                    (before ++ after)) (sample_world (Some 3)),
          Raise ValueError).
Proof.
  exact (delete_comment_by_author_exactly nonempty http_prefixed sample_hash
           sample_check decimal_segment decimal_segment
           (sample_world (Some 3)) carol comment2 "abc" "2" 2
           sample_world_carol_reachable (conj eq_refl eq_refl) eq_refl eq_refl
           eq_refl).
Defined.

Lemma reachable_pages_render_witness :
  exists i,
    current_user (sample_world (Some 4)) = (sample_world (Some 4), Ok i)
    /\ get_all_posts (sample_world (Some 4))
       = (sample_world (Some 4),
          Ok ([post1; post2], RenderTemplate "index.html" (is_authenticated i)))
    /\ about (sample_world (Some 4))
       = (sample_world (Some 4),
          Ok (RenderTemplate "about.html" (is_authenticated i)))
    /\ contact (sample_world (Some 4))
       = (sample_world (Some 4),
          Ok (RenderTemplate "contact.html" (is_authenticated i))).
Proof.
  exact (reachable_pages_render nonempty http_prefixed sample_hash sample_check
      decimal_segment decimal_segment
           (sample_world (Some 4)) sample_world_reachable).
Defined.

Lemma reachable_rows_found_by_key_witness :
  get Comment.id 2 (comments (db (sample_world (Some 4)))) = Some comment2.
Proof.
  destruct (reachable_rows_found_by_key nonempty http_prefixed sample_hash
              sample_check
                  decimal_segment decimal_segment
                  (sample_world (Some 4)) sample_world_reachable)
    as (_ & _ & Hc).
  apply (Hc comment2). cbn. tauto.
Defined.
